(** * xrmocap: triangulation input validation, masking and view statistics

    A shallow embedding of [xrmocap/utils/triangulation_utils.py]:
    [__init_valid_views_dict__], [get_valid_views_stats],
    [prepare_triangulate_input] and [parse_keypoints_mask], together with
    the part of NumPy the four functions rely on (shapes, basic slicing,
    [ones_like], [reshape] with one inferred axis, index-array assignment).

    Conventions of the model
    - an [ndarray] is a dtype, a shape and its elements in row-major order.
      The model has the two dtypes NumPy gives to Python floats and ints,
      float64 and int64. Elements are recorded as binary64 floats (Rocq's
      primitive floats), so [np.nan], [1.0], [np.isnan] and [==] are the
      IEEE ones; an element of an int64 array is recorded by its float64
      image, which is what [np.isnan], [== 1.0] and [== 0] read of it;
    - an object that is neither [None], an ndarray, a list nor a tuple is
      known by its [shape] attribute only, a tuple of extents when it has
      one (a [torch.Tensor], a NumPy scalar);
    - a Python exception is a [Raise]; the five [ValueError]/[TypeError]
      raise sites of the module are told apart by the kind the
      specification gives them;
    - the logger calls that precede every [raise] and the rendering of the
      report by [prettytable] are outside the model; the report is kept as
      the list of rows handed to [add_row]. *)

From Stdlib Require Import Floats Uint63.
From stdpp Require Import base numbers option list.

Local Open Scope Z_scope.
Local Open Scope nat_scope.

(** ** Floats *)

Module Float.

Definition t := PrimFloat.float.

Definition zero : t := PrimFloat.zero.
Definition one : t := PrimFloat.one.
Definition nan : t := PrimFloat.nan.

(** [np.isnan] *)
Definition isnan (x : t) : bool := PrimFloat.is_nan x.

(** [x == y] on floats: IEEE equality, false on NaN. *)
Definition eqb (x y : t) : bool := PrimFloat.eqb x y.

Definition add (x y : t) : t := PrimFloat.add x y.
Definition div (x y : t) : t := PrimFloat.div x y.

(** [float(n)] for a Python int. Array extents are below 2^63, so the
    conversion of the magnitude goes through a 63-bit integer. *)
Definition of_Z (n : Z) : t :=
  if (n <? 0)%Z
  then PrimFloat.opp (PrimFloat.of_uint63 (Uint63.of_Z (- n)))
  else PrimFloat.of_uint63 (Uint63.of_Z n).

(** The float reached from [0.0] by [n] additions of [1.0]: how the
    module represents a count. *)
Definition count (n : nat) : t := Nat.iter n (fun x => add x one) zero.

End Float.

(** ** Exceptions and results *)

(** The kinds of the specification's error table, one per [raise
    ValueError] site of the module. *)
Inductive ShapeKind : Set :=
  | ViewCountMismatch
  | CoordWidthTooSmall
  | MaskShapeMismatch
  | KeypointCountMismatch.

Inductive exn : Set :=
  | TypeError                      (* [raise TypeError]: InvalidInput *)
  | ValueError (k : ShapeKind)     (* [raise ValueError] of the module *)
  | ReshapeError                   (* NumPy: ValueError, cannot reshape *)
  | CastError                      (* NumPy: ValueError, cannot convert
                                      float NaN to integer *)
  | IndexError                     (* tuple index / too many indices *)
  | AttributeError                 (* object has no attribute 'shape' *)
  | ZeroDivisionError
  | KeyError
  | OutOfModel.                    (* behaviour the model does not cover *)

Inductive result (A : Type) : Type :=
  | Ok (a : A)
  | Raise (e : exn).
Arguments Ok {A} a.
Arguments Raise {A} e.

#[global] Instance result_ret : MRet result := @Ok.
#[global] Instance result_bind : MBind result := fun A B f m =>
  match m with
  | Ok a => f a
  | Raise e => Raise e
  end.

Definition is_ok {A} (r : result A) : bool :=
  match r with Ok _ => true | Raise _ => false end.

(** ** Arrays *)

(** The dtypes of the model: what [np.asarray] gives to nested lists of
    Python floats and of Python ints. *)
Inductive DType : Set :=
  | float64
  | int64.

Record ndarray : Type := mk_ndarray {
  dtype : DType;
  shape : list nat;
  data : list Float.t
}.

(** Number of elements of an array of the given shape. *)
Definition size (s : list nat) : nat := foldr Nat.mul 1 s.

(** The invariant of every array NumPy builds. *)
Definition wf (a : ndarray) : Prop := length (data a) = size (shape a).

Module Np.

(** [s[0]]: IndexError on the empty tuple. *)
Definition shape_first (s : list nat) : result nat :=
  match s with
  | [] => Raise IndexError
  | n :: _ => Ok n
  end.

(** [s[1]] *)
Definition shape_second (s : list nat) : result nat :=
  match s with
  | _ :: n :: _ => Ok n
  | _ => Raise IndexError
  end.

(** [s[-1]] *)
Definition shape_last (s : list nat) : result nat :=
  match last s with
  | Some n => Ok n
  | None => Raise IndexError
  end.

(** [s[-2]] *)
Definition shape_penult (s : list nat) : result nat :=
  match last (removelast s) with
  | Some n => Ok n
  | None => Raise IndexError
  end.

(** [s[:-1]]: never fails, the empty tuple gives the empty tuple. *)
Definition shape_init (s : list nat) : list nat := removelast s.

(** [a[..., 0:1]]: the slice [0:1] of the last axis. An array of rank
    0 has no axis to slice (IndexError); a last axis of width 0 stays
    empty. Element [(i, 0)] of the result is element [(i, 0)] of [a]. *)
Definition getitem_ellipsis_0_1 (a : ndarray) : result ndarray :=
  match last (shape a) with
  | None => Raise IndexError
  | Some d =>
      let lead := removelast (shape a) in
      let w := Nat.min 1 d in
      Ok {| dtype := dtype a;
            shape := lead ++ [w];
            data := omap (fun i => data a !! (i * d)) (seq 0 (size lead * w)) |}
  end.

(** [np.ones_like(a)]: the dtype of [a] is kept. *)
Definition ones_like (a : ndarray) : ndarray :=
  {| dtype := dtype a;
     shape := shape a;
     data := replicate (size (shape a)) Float.one |}.

(** [a.reshape(-1, k, c)]: the first extent is inferred. NumPy refuses
    (ValueError) when the known extents multiply to 0 or do not divide
    the number of elements. *)
Definition reshape_infer (a : ndarray) (k c : nat) : result ndarray :=
  let s_known := k * c in
  let s_original := size (shape a) in
  if (s_known =? 0) || negb (s_original mod s_known =? 0)
  then Raise ReshapeError
  else Ok {| dtype := dtype a;
             shape := [s_original / s_known; k; c];
             data := data a |}.

(** [a.reshape] to a fully given shape, no extent inferred. *)
Definition reshape (a : ndarray) (s : list nat) : result ndarray :=
  if size (shape a) =? size s
  then Ok {| dtype := dtype a; shape := s; data := data a |}
  else Raise ReshapeError.

(** The conversion of the Python float [v] to an element of dtype [dt].
    NaN has no int64 value (ValueError). The module assigns nothing but
    [np.nan], so the truncation of the other floats is left out. *)
Definition of_pyfloat (dt : DType) (v : Float.t) : result Float.t :=
  match dt with
  | float64 => Ok v
  | int64 => if Float.isnan v then Raise CastError else Raise OutOfModel
  end.

(** [a[:, idx, :] = v] on an array of rank 3, [idx] an index array and
    [v] a Python float: [v] is first converted to the dtype of [a],
    whatever [idx] holds, then every element whose middle coordinate
    occurs in [idx] becomes [v]. An index outside the middle axis is an
    IndexError. *)
Definition setitem_axis1 (a : ndarray) (idx : list nat) (v : Float.t)
  : result ndarray :=
  match shape a with
  | [_; k; c] =>
      v ← of_pyfloat (dtype a) v;
      if forallb (fun j => j <? k) idx
      then Ok {| dtype := dtype a;
                 shape := shape a;
                 data := imap (fun p x =>
                                 if bool_decide ((p / c) mod k ∈ idx)
                                 then v else x) (data a) |}
      else Raise IndexError
  | _ => Raise IndexError
  end.

(** [np.where(m == 0)[0]]: for every element of [m] equal to zero, in
    row-major order, its coordinate along the first axis. *)
Definition where_eq0_first (m : ndarray) : list nat :=
  let stride := size (tail (shape m)) in
  omap (fun '(p, x) =>
          if Float.eqb x Float.zero then Some (p / stride) else None)
       (imap (fun p x => (p, x)) (data m)).

End Np.

(** ** Python values handed to the module *)

(** What a caller may pass where the signature says
    [Union[np.ndarray, list, tuple]] or [None]. A nested list or tuple is
    represented by the array [np.asarray] builds from it. Any other
    object comes with its [shape] attribute: [Some s] for an object that
    has one without being an ndarray (a [torch.Tensor], a NumPy scalar),
    [None] for an object without it (an int, a string). *)
Inductive pyobj : Type :=
  | PyNone
  | PyArray (a : ndarray)
  | PyList (a : ndarray)
  | PyTuple (a : ndarray)
  | PyOther (shape_attr : option (list nat)).

(** [o.shape]: [None], lists and tuples do not have the attribute. *)
Definition attr_shape (o : pyobj) : result (list nat) :=
  match o with
  | PyArray a => Ok (shape a)
  | PyOther (Some s) => Ok s
  | _ => Raise AttributeError
  end.

(** ** [prepare_triangulate_input] *)

Definition prepare_triangulate_input
    (camera_number : Z) (points points_mask : pyobj)
  : result (ndarray * ndarray) :=
  (* if isinstance(points, list) or isinstance(points, tuple):
         points = np.asarray(points) *)
  let points :=
    match points with
    | PyList a | PyTuple a => PyArray a
    | o => o
    end in
  (* check points type *)
  points ← match points with
           | PyArray a => Ok a
           | _ => Raise TypeError
           end;
  (* if points_mask is None: ... elif list or tuple: ... *)
  points_mask ←
    match points_mask with
    | PyNone =>
        sl ← Np.getitem_ellipsis_0_1 points; Ok (PyArray (Np.ones_like sl))
    | PyList a | PyTuple a => Ok (PyArray a)
    | o => Ok o
    end;
  (* check points_mask type *)
  points_mask ← match points_mask with
                | PyArray a => Ok a
                | _ => Raise TypeError
                end;
  (* check points shape *)
  p0 ← Np.shape_first (shape points);
  m0 ← Np.shape_first (shape points_mask);
  if negb ((p0 =? m0) && (Z.of_nat p0 =? camera_number)%Z)
  then Raise (ValueError ViewCountMismatch)
  else
    pl ← Np.shape_last (shape points);
    if pl <? 2
    then Raise (ValueError CoordWidthTooSmall)
    else
      (* check points_mask shape *)
      ml ← Np.shape_last (shape points_mask);
      if negb (bool_decide (Np.shape_init (shape points)
                            = Np.shape_init (shape points_mask)))
         || negb (ml =? 1)
      then Raise (ValueError MaskShapeMismatch)
      else Ok (points, points_mask).

(** ** [parse_keypoints_mask] *)

Definition parse_keypoints_mask (keypoints keypoints_mask : pyobj)
  : result ndarray :=
  (* camera_number=keypoints.shape[0] *)
  ks ← attr_shape keypoints;
  camera_number ← Np.shape_first ks;
  '(keypoints, triangulate_mask) ←
    prepare_triangulate_input (Z.of_nat camera_number) keypoints PyNone;
  let init_points_mask_shape := shape triangulate_mask in
  (* if keypoints.shape[-2] != keypoints_mask.shape[0]: *)
  k2 ← Np.shape_penult (shape keypoints);
  ms ← attr_shape keypoints_mask;
  m0 ← Np.shape_first ms;
  if negb (k2 =? m0)
  then Raise (ValueError KeypointCountMismatch)
  else
    (* [keypoints_mask == 0] is followed on arrays only *)
    keypoints_mask ← match keypoints_mask with
                     | PyArray m => Ok m
                     | _ => Raise OutOfModel
                     end;
    let nan_indexes := Np.where_eq0_first keypoints_mask in
    s2 ← Np.shape_penult init_points_mask_shape;
    s1 ← Np.shape_last init_points_mask_shape;
    triangulate_mask ← Np.reshape_infer triangulate_mask s2 s1;
    triangulate_mask ← Np.setitem_axis1 triangulate_mask nan_indexes Float.nan;
    Np.reshape triangulate_mask init_points_mask_shape.

(** ** The statistics dictionary *)

(** A Python [dict] from int to float, in insertion order. *)
Module Dict.

Definition t := list (Z * Float.t).

(** [d.get(k)] *)
Fixpoint get (d : t) (k : Z) : option Float.t :=
  match d with
  | [] => None
  | (k', v) :: d' => if (k' =? k)%Z then Some v else get d' k
  end.

(** [d[k]] *)
Definition getitem (d : t) (k : Z) : result Float.t :=
  match get d k with
  | Some v => Ok v
  | None => Raise KeyError
  end.

(** [d[k] = v]: in place when the key exists, appended otherwise. *)
Fixpoint set (d : t) (k : Z) (v : Float.t) : t :=
  match d with
  | [] => [(k, v)]
  | (k', v') :: d' =>
      if (k' =? k)%Z then (k', v) :: d' else (k', v') :: set d' k v
  end.

(** [k in d.keys()] *)
Definition mem (d : t) (k : Z) : bool :=
  existsb (fun kv => (kv.1 =? k)%Z) d.

Definition keys (d : t) : list Z := d.*1.
Definition values (d : t) : list Float.t := d.*2.
Definition items (d : t) : list (Z * Float.t) := d.

End Dict.

(** [range(n)] *)
Definition range (n : Z) : list Z := Z.of_nat <$> seq 0 (Z.to_nat n).

(** A [for] loop whose body may raise. *)
Fixpoint for_each {A S : Type} (body : S → A → result S) (l : list A) (s : S)
  : result S :=
  match l with
  | [] => Ok s
  | x :: l' => s' ← body s x; for_each body l' s'
  end.

Definition __init_valid_views_dict__ (concerned_n_view : Z) : Dict.t :=
  foldl (fun valid_views_dict n_view => Dict.set valid_views_dict n_view Float.zero)
        [] (range concerned_n_view).

(** ** [get_valid_views_stats] *)

(** [points_mask[:, point_index, 0]]. The docstring fixes the mask to rank
    3; below rank 3 the subscript has too many indices, above it the
    result is no longer a vector and the model stops. *)
Definition getitem_pair (points_mask : ndarray) (point_index : nat)
  : result (list Float.t) :=
  match shape points_mask with
  | [n_view; n_point; c] =>
      if (point_index <? n_point) && (0 <? c)
      then Ok (omap (fun v => data points_mask !! ((v * n_point + point_index) * c))
                    (seq 0 n_view))
      else Raise IndexError
  | [] | [_] | [_; _] => Raise IndexError
  | _ => Raise OutOfModel
  end.

(** [int(np.sum(pair_data == 1.0, axis=0))] *)
Definition n_valid_of (pair_data : list Float.t) : nat :=
  let valid_mask := (fun x => Float.eqb x Float.one) <$> pair_data in
  sum_list (Nat.b2n <$> valid_mask).

(** [len(pair_data[np.isnan(pair_data)]) > 0] *)
Definition marked_by_nan (pair_data : list Float.t) : bool :=
  let nan_data := List.filter Float.isnan pair_data in
  0 <? length nan_data.

(** One iteration of the loop over [point_index]; the state is
    [(valid_stats_dict, total_pairs)]. *)
Definition stats_step (points_mask : ndarray) (st : Dict.t * Z) (point_index : nat)
  : result (Dict.t * Z) :=
  let '(valid_stats_dict, total_pairs) := st in
  pair_data ← getitem_pair points_mask point_index;
  (* if marked by nan, skip *)
  if marked_by_nan pair_data
  then Ok (valid_stats_dict, (total_pairs - 1)%Z)
  else
    (* check how many valid views in one data pair *)
    let n_valid := Z.of_nat (n_valid_of pair_data) in
    (* if critical, count it *)
    if Dict.mem valid_stats_dict n_valid
    then
      v ← Dict.getitem valid_stats_dict n_valid;
      Ok (Dict.set valid_stats_dict n_valid (Float.add v Float.one), total_pairs)
    else Ok (valid_stats_dict, total_pairs).

(** The function up to the end of the loop: the raw histogram and the
    [total_pairs] that the rate is computed from. [range(total_pairs)] is
    built once, before [total_pairs] is decremented. *)
Definition count_valid_views (points_mask : ndarray) (concerned_n_view : Z)
  : result (Dict.t * Z) :=
  let valid_stats_dict := __init_valid_views_dict__ concerned_n_view in
  total_pairs ← Np.shape_second (shape points_mask);
  for_each (stats_step points_mask) (seq 0 total_pairs)
           (valid_stats_dict, Z.of_nat total_pairs).

(** [x / float(n)]: Python raises ZeroDivisionError when the divisor is
    [0.0], which [float(n)] is exactly for [n = 0]. *)
Definition truediv_int (x : Float.t) (n : Z) : result Float.t :=
  if (n =? 0)%Z then Raise ZeroDivisionError
  else Ok (Float.div x (Float.of_Z n)).

(** [valid_stats_dict[key] = valid_stats_dict[key] / float(total_pairs)] *)
Definition rate_step (total_pairs : Z) (valid_stats_dict : Dict.t) (key : Z)
  : result Dict.t :=
  v ← Dict.getitem valid_stats_dict key;
  q ← truediv_int v total_pairs;
  Ok (Dict.set valid_stats_dict key q).

(** [for key in valid_stats_dict.keys(): ...] *)
Definition to_rate (valid_stats_dict : Dict.t) (total_pairs : Z) : result Dict.t :=
  for_each (rate_step total_pairs) (Dict.keys valid_stats_dict) valid_stats_dict.

Definition get_valid_views_stats
    (points_mask : ndarray) (concerned_n_view : Z) (return_rate : bool)
  : result (Dict.t * list (Z * Float.t)) :=
  '(valid_stats_dict, total_pairs) ← count_valid_views points_mask concerned_n_view;
  (* get ratio if required *)
  valid_stats_dict ←
    (if return_rate && (0 <? total_pairs)%Z
     then to_rate valid_stats_dict total_pairs
     else Ok valid_stats_dict);
  let table := Dict.items valid_stats_dict in
  Ok (valid_stats_dict, table).

(** ** Test data *)

(** [np.full(s, v)] for a float [v]. *)
Definition full (s : list nat) (v : Float.t) : ndarray :=
  {| dtype := float64; shape := s; data := replicate (size s) v |}.

(** [np.array(l)] for a list of floats. *)
Definition vector (l : list Float.t) : ndarray :=
  {| dtype := float64; shape := [length l]; data := l |}.

(** [a.astype(dt)], for an array whose elements have a value in [dt]. *)
Definition astype (dt : DType) (a : ndarray) : ndarray :=
  {| dtype := dt; shape := shape a; data := data a |}.

Definition f0 : Float.t := Float.zero.
Definition f1 : Float.t := Float.one.
Definition fnan : Float.t := Float.nan.

(** ** Definitions used to state the properties *)

(** The dictionary with keys [l], in that order, and value [f k] at [k]. *)
Definition tabulate (f : Z → Float.t) (l : list Z) : Dict.t :=
  (fun k => (k, f k)) <$> l.

(** The per-point view slices of a rank-3 mask, by point index. *)
Definition pairs (m : ndarray) : list (list Float.t) :=
  match shape m with
  | [n_view; n_point; c] =>
      (fun j => omap (fun v => data m !! ((v * n_point + j) * c)) (seq 0 n_view))
        <$> seq 0 n_point
  | _ => []
  end.

(** A slice holds at least one NaN. *)
Definition has_nan (col : list Float.t) : bool := existsb Float.isnan col.

(** Number of entries of a slice exactly equal to [1.0]. *)
Definition ones (col : list Float.t) : nat :=
  length (List.filter (fun x => Float.eqb x Float.one) col).

(** Number of slices that hold no NaN and have exactly [k] entries equal
    to [1.0]. *)
Definition hits (k : Z) (cols : list (list Float.t)) : nat :=
  length (List.filter
            (fun col => negb (has_nan col) && (Z.of_nat (ones col) =? k)%Z)
            cols).

(** Number of slices that hold a NaN. *)
Definition excluded (cols : list (list Float.t)) : nat :=
  length (List.filter has_nan cols).

(** Number of slices without NaN whose valid views reach the threshold. *)
Definition uncounted (c : Z) (cols : list (list Float.t)) : nat :=
  length (List.filter
            (fun col => negb (has_nan col) && (c <=? Z.of_nat (ones col))%Z)
            cols).

(** The raw histogram the loop is expected to build from the slices. *)
Definition histogram (c : Z) (cols : list (list Float.t)) : Dict.t :=
  tabulate (fun k => Float.count (hits k cols)) (range c).

(** The slice the loop reads at [j], for a mask of rank 3. *)
Definition slice_at (m : ndarray) (n_view n_point w j : nat) : list Float.t :=
  omap (fun v => data m !! ((v * n_point + j) * w)) (seq 0 n_view).

(** Every value of the dictionary divided by [float(total_pairs)]. *)
Definition scaled (total_pairs : Z) (d : Dict.t) : Dict.t :=
  (fun kv => (kv.1, Float.div kv.2 (Float.of_Z total_pairs))) <$> d.

(** [sum(values)]: Python starts from the int [0], which the first
    addition converts to [0.0]. *)
Definition py_sum (values : list Float.t) : Float.t :=
  foldl Float.add Float.zero values.

(** Bound up to which the float arithmetic on counts is checked by
    evaluation. *)
Definition small_bound : nat := 256.

Definition float_eq_dec_b (x y : Float.t) : bool := PrimFloat.Leibniz.eqb x y.

Definition count_ok (n : nat) : bool :=
  float_eq_dec_b (Float.count n) (Float.of_Z (Z.of_nat n)).

Definition add_ok (a b : nat) : bool :=
  float_eq_dec_b (Float.add (Float.of_Z (Z.of_nat a)) (Float.of_Z (Z.of_nat b)))
                 (Float.of_Z (Z.of_nat (a + b))).

(** The mask of the concrete scenario: 3 views, 4 points, all ones except
    point 2, whose slice over the views is [1, 0, 1]. *)
Definition scenario_mask : ndarray :=
  {| dtype := float64; shape := [3; 4; 1];
     data := [f1; f1; f1; f1;
              f1; f1; f0; f1;
              f1; f1; f1; f1] |}.

(** A mask of shape [2, 3, 1] whose point 1 is marked by a NaN in view
    0: the slices over the views are [1, 0], [NaN, 1] and [0, 1]. *)
Definition nan_marked_mask : ndarray :=
  {| dtype := float64; shape := [2; 3; 1];
     data := [f1; fnan; f0;
              f0; f1; f1] |}.

(** The array a points or mask argument stands for once the list and
    tuple cases are coerced; [None] for any other object. *)
Definition as_array (o : pyobj) : option ndarray :=
  match o with
  | PyArray a | PyList a | PyTuple a => Some a
  | _ => None
  end.

(** Extent of the last axis, [0] for the empty shape. *)
Definition width (a : ndarray) : nat := default 0 (last (shape a)).

(** The mask synthesized when [points_mask] is [None]:
    [np.ones_like(points[..., 0:1])]. *)
Definition default_mask (p : ndarray) : ndarray :=
  astype (dtype p) (full (removelast (shape p) ++ [Nat.min 1 (width p)]) Float.one).

(** The elements of the returned mask: the all-ones mask in which the
    positions whose keypoint coordinate is in [idx] are NaN. *)
Definition masked_data (lead : list nat) (K : nat) (idx : list nat) : list Float.t :=
  imap (fun p x => if bool_decide ((p / 1) mod K ∈ idx) then Float.nan else x)
       (replicate (size (lead ++ [K; 1])) Float.one).

(** A mask of shape [3, 5, 1] without NaN: the points have 3, 2, 2, 0
    and 2 valid views. *)
Definition five_point_mask : ndarray :=
  {| dtype := float64; shape := [3; 5; 1];
     data := [f1; f1; f1; f0; f0;
              f1; f0; f1; f0; f1;
              f1; f1; f0; f0; f1] |}.

(** What [get_valid_views_stats] returns, as a function of the slices of
    the mask and of [n_point]. *)
Definition stats_of_slices
    (c : Z) (return_rate : bool) (n_point : nat) (cols : list (list Float.t))
  : result (Dict.t * list (Z * Float.t)) :=
  let raw := histogram c cols in
  let total := (Z.of_nat n_point - Z.of_nat (excluded cols))%Z in
  if return_rate && (0 <? total)%Z
  then Ok (scaled total raw, scaled total raw)
  else Ok (raw, raw).

(** The three values a mask entry is read as: NaN, [1.0], anything else. *)
Definition classify (x : Float.t) : Float.t :=
  if Float.isnan x then Float.nan
  else if Float.eqb x Float.one then Float.one
  else Float.zero.

(** The mask value a validity entry leads to. *)
Definition mask_value (x : Float.t) : Float.t :=
  if Float.eqb x Float.zero then Float.nan else Float.one.

(** Number of entries of a validity vector equal to zero. *)
Definition zeros (v : list Float.t) : nat :=
  length (List.filter (fun x => Float.eqb x Float.zero) v).

(** The shapes of a successful normalization, the error otherwise. *)
Definition outcome_shapes (r : result (ndarray * ndarray))
  : result (list nat * list nat) :=
  match r with
  | Ok (p, m) => Ok (shape p, shape m)
  | Raise e => Raise e
  end.

(** * Properties *)

(** ** Dictionaries built over a key list *)

Section DictFacts.

Implicit Types (f g : Z → Float.t) (l : list Z) (k : Z) (v : Float.t).

Lemma get_set_eq (d : Dict.t) k v : Dict.get (Dict.set d k v) k = Some v.
Proof.
  induction d as [|[k' v'] d IH]; simpl.
  - by rewrite Z.eqb_refl.
  - destruct (Z.eqb_spec k' k) as [->|Hne]; simpl.
    + by rewrite Z.eqb_refl.
    + by destruct (Z.eqb_spec k' k).
Qed.

Lemma get_set_ne (d : Dict.t) k k' v :
  k ≠ k' → Dict.get (Dict.set d k v) k' = Dict.get d k'.
Proof.
  intros Hne. induction d as [|[k0 v0] d IH]; simpl.
  - by destruct (Z.eqb_spec k k').
  - destruct (Z.eqb_spec k0 k) as [->|Hne0]; simpl.
    + by destruct (Z.eqb_spec k k').
    + by rewrite IH.
Qed.

Lemma mem_keys (d : Dict.t) k : Dict.mem d k = bool_decide (k ∈ Dict.keys d).
Proof.
  unfold Dict.mem, Dict.keys. induction d as [|[k' v'] d IH]; csimpl.
  - done.
  - rewrite IH. destruct (Z.eqb_spec k' k) as [->|Hne]; cbn [orb].
    + by rewrite bool_decide_eq_true_2 by (apply elem_of_cons; by left).
    + apply bool_decide_ext. rewrite elem_of_cons.
      split; [by right | intros [?|?]; [congruence | done]].
Qed.

Lemma mem_get (d : Dict.t) k : Dict.mem d k = true → is_Some (Dict.get d k).
Proof.
  unfold Dict.mem. induction d as [|[k' v'] d IH]; simpl; [done|].
  destruct (Z.eqb_spec k' k); simpl; eauto.
Qed.

Lemma keys_tabulate f l : Dict.keys (tabulate f l) = l.
Proof.
  unfold Dict.keys, tabulate.
  induction l as [|a l IH]; csimpl; [done | by f_equal].
Qed.

Lemma values_tabulate f l : Dict.values (tabulate f l) = f <$> l.
Proof.
  unfold Dict.values, tabulate.
  induction l as [|a l IH]; csimpl; [done | by f_equal].
Qed.

Lemma tabulate_ext f g l :
  (∀ k, k ∈ l → f k = g k) → tabulate f l = tabulate g l.
Proof.
  intros H. unfold tabulate. apply list_fmap_ext.
  intros i k Hk. f_equal. apply H. eapply list_elem_of_lookup_2, Hk.
Qed.

Lemma get_tabulate f l k :
  Dict.get (tabulate f l) k = if bool_decide (k ∈ l) then Some (f k) else None.
Proof.
  induction l as [|a l IH].
  - case_bool_decide as H; [by destruct (not_elem_of_nil _ H) | done].
  - change (Dict.get (tabulate f (a :: l)) k)
      with (if (a =? k)%Z then Some (f a) else Dict.get (tabulate f l) k).
    rewrite IH. destruct (Z.eqb_spec a k) as [->|Hne].
    + by rewrite bool_decide_eq_true_2 by (apply elem_of_cons; by left).
    + apply (f_equal (fun b : bool => if b then Some (f k) else None)).
      apply bool_decide_ext. rewrite elem_of_cons.
      split; [by right | intros [?|?]; [congruence | done]].
Qed.

Lemma mem_tabulate f l k : Dict.mem (tabulate f l) k = bool_decide (k ∈ l).
Proof.
  induction l as [|a l IH].
  - case_bool_decide as H; [by destruct (not_elem_of_nil _ H) | done].
  - change (Dict.mem (tabulate f (a :: l)) k)
      with ((a =? k)%Z || Dict.mem (tabulate f l) k).
    rewrite IH. destruct (Z.eqb_spec a k) as [->|Hne]; cbn [orb].
    + by rewrite bool_decide_eq_true_2 by (apply elem_of_cons; by left).
    + apply bool_decide_ext. rewrite elem_of_cons.
      split; [by right | intros [?|?]; [congruence | done]].
Qed.

Lemma set_tabulate f l k v :
  NoDup l → k ∈ l →
  Dict.set (tabulate f l) k v = tabulate (fun k' => if (k' =? k)%Z then v else f k') l.
Proof.
  induction l as [|a l IH]; intros Hnd Hin; [by destruct (not_elem_of_nil _ Hin)|].
  apply NoDup_cons in Hnd as [Ha Hnd]. simpl.
  destruct (Z.eqb_spec a k) as [->|Hne].
  - f_equal. apply tabulate_ext. intros k' Hk'.
    destruct (Z.eqb_spec k' k); [congruence | done].
  - f_equal. apply IH; [done|]. apply elem_of_cons in Hin as [?|?]; [congruence | done].
Qed.

Lemma set_tabulate_fresh f l k v :
  k ∉ l → Dict.set (tabulate f l) k v = tabulate f l ++ [(k, v)].
Proof.
  induction l as [|a l IH]; intros Hk; [done|]. simpl.
  apply not_elem_of_cons in Hk as [Hne Hk].
  destruct (Z.eqb_spec a k); [congruence|]. by rewrite IH.
Qed.

End DictFacts.

(** ** The statistics loop *)

Section StatsFacts.

Implicit Types (m : ndarray) (c k t : Z) (cols : list (list Float.t)).

Lemma range_NoDup c : NoDup (range c).
Proof.
  unfold range. apply NoDup_fmap_2; [apply Nat2Z.inj' | apply NoDup_seq].
Qed.

Lemma elem_of_range c k : k ∈ range c ↔ (0 ≤ k < c)%Z.
Proof.
  unfold range. rewrite list_elem_of_fmap. split.
  - intros (n & -> & Hn). apply elem_of_seq in Hn. lia.
  - intros H. exists (Z.to_nat k). split; [lia|]. apply elem_of_seq. lia.
Qed.

Lemma init_valid_views_dict_spec c :
  __init_valid_views_dict__ c = tabulate (fun _ => Float.zero) (range c).
Proof.
  unfold __init_valid_views_dict__, range.
  induction (Z.to_nat c) as [|n IH]; [done|].
  rewrite seq_S, fmap_app, foldl_app, IH. simpl.
  rewrite set_tabulate_fresh.
  - unfold tabulate. by rewrite fmap_app.
  - rewrite list_elem_of_fmap. intros (i & Hi & Hin).
    apply elem_of_seq in Hin. lia.
Qed.

Lemma hits_app k cols cols' : hits k (cols ++ cols') = hits k cols + hits k cols'.
Proof. unfold hits. by rewrite List.filter_app, length_app. Qed.

Lemma excluded_app cols cols' :
  excluded (cols ++ cols') = excluded cols + excluded cols'.
Proof. unfold excluded. by rewrite List.filter_app, length_app. Qed.

Lemma excluded_cons col cols :
  excluded (col :: cols) = excluded [col] + excluded cols.
Proof. apply (excluded_app [col]). Qed.

Lemma count_S n : Float.count (S n) = Float.add (Float.count n) Float.one.
Proof. done. Qed.

Lemma histogram_nil c : histogram c [] = __init_valid_views_dict__ c.
Proof. by rewrite init_valid_views_dict_spec. Qed.

Lemma marked_by_nan_has_nan col : marked_by_nan col = has_nan col.
Proof.
  unfold marked_by_nan, has_nan.
  induction col as [|x col IH]; [done|]. simpl.
  destruct (Float.isnan x); [done|]. by rewrite <- IH.
Qed.

Lemma n_valid_of_ones col : n_valid_of col = ones col.
Proof.
  unfold n_valid_of, ones.
  induction col as [|x col IH]; [done|]. csimpl.
  destruct (Float.eqb x Float.one); simpl; by rewrite IH.
Qed.

(** Adding one slice to the histogram: the effect of one loop body. *)
Lemma histogram_snoc c cols col :
  histogram c (cols ++ [col]) =
    if has_nan col then histogram c cols
    else
      let n := Z.of_nat (ones col) in
      if Dict.mem (histogram c cols) n
      then Dict.set (histogram c cols) n
             (Float.add (Float.count (hits n cols)) Float.one)
      else histogram c cols.
Proof.
  unfold histogram. destruct (has_nan col) eqn:Hnan.
  - apply tabulate_ext. intros k _. rewrite hits_app. unfold hits at 2.
    simpl. rewrite Hnan. simpl. by rewrite Nat.add_0_r.
  - cbv zeta. rewrite mem_tabulate. case_bool_decide as Hin.
    + rewrite set_tabulate by (done || apply range_NoDup).
      apply tabulate_ext. intros k _. rewrite hits_app. unfold hits at 2.
      simpl. rewrite Hnan. simpl.
      destruct (Z.eqb_spec k (Z.of_nat (ones col))) as [->|Hne].
      * rewrite Z.eqb_refl. simpl. by rewrite Nat.add_1_r.
      * destruct (Z.eqb_spec (Z.of_nat (ones col)) k); [congruence|].
        simpl. by rewrite Nat.add_0_r.
    + apply tabulate_ext. intros k Hk. rewrite hits_app. unfold hits at 2.
      simpl. rewrite Hnan. simpl.
      destruct (Z.eqb_spec (Z.of_nat (ones col)) k); [congruence|].
      simpl. by rewrite Nat.add_0_r.
Qed.

Lemma getitem_pair_rank3 m n_view n_point w j :
  shape m = [n_view; n_point; w] → j < n_point → 0 < w →
  getitem_pair m j = Ok (slice_at m n_view n_point w j).
Proof.
  intros Hs Hj Hw. unfold getitem_pair. rewrite Hs.
  destruct (Nat.ltb_spec j n_point); [|lia].
  destruct (Nat.ltb_spec 0 w); [done|lia].
Qed.

Lemma pairs_rank3 m n_view n_point w :
  shape m = [n_view; n_point; w] →
  pairs m = slice_at m n_view n_point w <$> seq 0 n_point.
Proof. intros Hs. unfold pairs. by rewrite Hs. Qed.

(** One iteration on a state that is the histogram of the slices seen
    so far. *)
Lemma stats_step_histogram m n_view n_point w c cols t j :
  shape m = [n_view; n_point; w] → j < n_point → 0 < w →
  let col := slice_at m n_view n_point w j in
  stats_step m (histogram c cols, t) j =
    Ok (histogram c (cols ++ [col]),
        (t - Z.of_nat (excluded [col]))%Z).
Proof.
  intros Hs Hj Hw col. unfold stats_step.
  rewrite (getitem_pair_rank3 _ _ _ _ _ Hs Hj Hw). fold col.
  change (Ok col ≫= ?f) with (f col). cbv beta.
  rewrite histogram_snoc, marked_by_nan_has_nan, n_valid_of_ones.
  unfold excluded. simpl.
  destruct (has_nan col) eqn:Hnan; simpl.
  - done.
  - rewrite Z.sub_0_r.
    destruct (Dict.mem (histogram c cols) (Z.of_nat (ones col))) eqn:Hmem;
      [|done].
    unfold Dict.getitem, histogram in *. rewrite get_tabulate.
    rewrite mem_tabulate in Hmem. by rewrite Hmem.
Qed.

Lemma for_each_stats m n_view n_point w c js cols t :
  shape m = [n_view; n_point; w] → 0 < w → Forall (fun j => j < n_point) js →
  for_each (stats_step m) js (histogram c cols, t) =
    Ok (histogram c (cols ++ (slice_at m n_view n_point w <$> js)),
        (t - Z.of_nat (excluded (slice_at m n_view n_point w <$> js)))%Z).
Proof.
  intros Hs Hw. revert cols t.
  induction js as [|j js IH]; intros cols t Hjs.
  - simpl. unfold excluded. simpl. by rewrite app_nil_r, Z.sub_0_r.
  - apply Forall_cons in Hjs as [Hj Hjs]. cbn [for_each].
    rewrite (stats_step_histogram _ _ _ _ _ _ _ _ Hs Hj Hw).
    change (Ok ?s ≫= ?f) with (f s). cbv beta.
    rewrite IH by done. rewrite fmap_cons, <- app_assoc. simpl.
    do 2 f_equal.
    rewrite (excluded_cons _ (_ <$> js)). lia.
Qed.

(** The loop of [get_valid_views_stats] on a mask of rank 3 whose last
    axis is not empty. *)
Lemma count_valid_views_spec m n_view n_point w c :
  shape m = [n_view; n_point; w] → 0 < w →
  count_valid_views m c =
    Ok (histogram c (pairs m),
        (Z.of_nat n_point - Z.of_nat (excluded (pairs m)))%Z).
Proof.
  intros Hs Hw. unfold count_valid_views. rewrite Hs. simpl.
  rewrite <- histogram_nil.
  rewrite (for_each_stats _ _ _ _ _ _ _ _ Hs Hw).
  - by rewrite (pairs_rank3 _ _ _ _ Hs).
  - apply Forall_forall. intros j Hj. apply elem_of_seq in Hj. lia.
Qed.

Lemma excluded_le cols : excluded cols ≤ length cols.
Proof. unfold excluded. apply List.filter_length_le. Qed.

Lemma length_pairs m n_view n_point w :
  shape m = [n_view; n_point; w] → length (pairs m) = n_point.
Proof.
  intros Hs. rewrite (pairs_rank3 _ _ _ _ Hs).
  by rewrite length_fmap, length_seq.
Qed.

End StatsFacts.

(** ** The rate conversion *)

Section RateFacts.

Implicit Types (f g : Z → Float.t) (l ks : list Z) (k total : Z).

Lemma scaled_tabulate total f l :
  scaled total (tabulate f l)
  = tabulate (fun k => Float.div (f k) (Float.of_Z total)) l.
Proof.
  unfold scaled, tabulate.
  induction l as [|a l IH]; csimpl; [done | by f_equal].
Qed.

Lemma rate_step_tabulate total f l key :
  total ≠ 0%Z → NoDup l → key ∈ l →
  rate_step total (tabulate f l) key
  = Ok (tabulate (fun k => if (k =? key)%Z
                           then Float.div (f key) (Float.of_Z total)
                           else f k) l).
Proof.
  intros Ht Hl Hin. unfold rate_step, Dict.getitem, truediv_int.
  rewrite get_tabulate, bool_decide_eq_true_2 by done.
  destruct (Z.eqb_spec total 0); [done|].
  change (Ok ?q ≫= ?h) with (h q). cbv beta.
  change (Ok ?q ≫= ?h) with (h q). cbv beta.
  by rewrite set_tabulate.
Qed.

Lemma to_rate_loop total f l ks :
  total ≠ 0%Z → NoDup l → NoDup ks → ks ⊆ l →
  for_each (rate_step total) ks (tabulate f l)
  = Ok (tabulate (fun k => if bool_decide (k ∈ ks)
                           then Float.div (f k) (Float.of_Z total)
                           else f k) l).
Proof.
  intros Ht Hl. revert f.
  induction ks as [|key ks IH]; intros f Hks Hsub.
  - reflexivity.
  - apply NoDup_cons in Hks as [Hkey Hks].
    assert (Hin : key ∈ l) by (apply Hsub; by left).
    cbn [for_each]. rewrite rate_step_tabulate by done.
    change (Ok ?q ≫= ?h) with (h q). cbv beta.
    rewrite IH; [|done|].
    + f_equal. apply tabulate_ext. intros k Hk.
      destruct (Z.eqb_spec k key) as [->|Hne].
      * rewrite bool_decide_eq_false_2 by done.
        by rewrite bool_decide_eq_true_2 by (apply elem_of_cons; by left).
      * apply (f_equal (fun b : bool =>
                 if b then Float.div (f k) (Float.of_Z total) else f k)).
        apply bool_decide_ext. rewrite elem_of_cons.
        split; [by right | intros [?|?]; [congruence | done]].
    + intros k Hk. apply Hsub. by right.
Qed.

Lemma to_rate_tabulate total f l :
  total ≠ 0%Z → NoDup l →
  to_rate (tabulate f l) total = Ok (scaled total (tabulate f l)).
Proof.
  intros Ht Hl. unfold to_rate. rewrite keys_tabulate.
  rewrite to_rate_loop by done. rewrite scaled_tabulate. f_equal.
  apply tabulate_ext. intros k Hk. by rewrite bool_decide_eq_true_2.
Qed.

End RateFacts.

(** ** Counting facts about the slices *)

Section CountingFacts.

Implicit Types (c k : Z) (col : list Float.t) (cols : list (list Float.t)).

Lemma hits_excluded_le k cols : hits k cols + excluded cols ≤ length cols.
Proof.
  unfold hits, excluded. induction cols as [|col cols IH]; simpl; [lia|].
  destruct (has_nan col); simpl; [lia|].
  destruct (Z.of_nat (ones col) =? k)%Z; simpl; lia.
Qed.

Lemma sum_list_fmap_add {A} (f g : A → nat) (l : list A) :
  sum_list ((fun x => f x + g x) <$> l) = sum_list (f <$> l) + sum_list (g <$> l).
Proof. induction l as [|a l IH]; csimpl; lia. Qed.

Lemma sum_list_fmap_zero {A} (l : list A) : sum_list ((fun _ => 0) <$> l) = 0.
Proof. induction l as [|a l IH]; csimpl; lia. Qed.

(** Exactly one key of [range c] equals [n] when [n < c], none otherwise. *)
Lemma sum_indicator_range c (n : nat) :
  sum_list ((fun k => Nat.b2n (Z.of_nat n =? k)%Z) <$> range c)
  = Nat.b2n (Z.of_nat n <? c)%Z.
Proof.
  unfold range.
  assert (H : ∀ N, sum_list ((fun k => Nat.b2n (Z.of_nat n =? k)%Z)
                               <$> (Z.of_nat <$> seq 0 N))
                   = Nat.b2n (n <? N)).
  { induction N as [|N IH]; [done|].
    rewrite seq_S, !fmap_app, sum_list_with_app, IH. csimpl.
    destruct (Z.eqb_spec (Z.of_nat n) (Z.of_nat N)) as [He|Hne];
      destruct (Nat.ltb_spec n N); destruct (Nat.ltb_spec n (S N));
      simpl; lia. }
  rewrite H.
  destruct (Nat.ltb_spec n (Z.to_nat c)); destruct (Z.ltb_spec (Z.of_nat n) c);
    simpl; lia.
Qed.

(** Every slice is hard-excluded, counted in one bucket, or beyond the
    threshold. *)
Lemma slices_partition c cols :
  sum_list ((fun k => hits k cols) <$> range c)
  + uncounted c cols + excluded cols = length cols.
Proof.
  induction cols as [|col cols IH].
  - unfold hits, uncounted, excluded. simpl. by rewrite sum_list_fmap_zero.
  - assert (Hk : ∀ k, hits k (col :: cols)
                      = Nat.b2n (negb (has_nan col) && (Z.of_nat (ones col) =? k)%Z)
                        + hits k cols).
    { intros k. unfold hits. simpl.
      by destruct (negb (has_nan col) && (Z.of_nat (ones col) =? k)%Z). }
    rewrite (list_fmap_ext (fun k => hits k (col :: cols))
               (fun k => Nat.b2n (negb (has_nan col) && (Z.of_nat (ones col) =? k)%Z)
                         + hits k cols) (range c))
      by (intros ? k ?; apply Hk).
    rewrite sum_list_fmap_add.
    unfold uncounted, excluded in *. simpl.
    destruct (has_nan col) eqn:Hnan; simpl.
    + rewrite sum_list_fmap_zero. lia.
    + rewrite sum_indicator_range.
      destruct (Z.ltb_spec (Z.of_nat (ones col)) c);
        destruct (Z.leb_spec c (Z.of_nat (ones col))); simpl; lia.
Qed.

Lemma excluded_no_nan cols :
  Forall (fun col => has_nan col = false) cols → excluded cols = 0.
Proof.
  unfold excluded. induction 1 as [|col cols Hc _ IH]; simpl; [done|].
  by rewrite Hc.
Qed.

Lemma uncounted_no_nan c cols :
  Forall (fun col => has_nan col = false) cols →
  uncounted c cols
  = length (List.filter (fun col => (c <=? Z.of_nat (ones col))%Z) cols).
Proof.
  unfold uncounted. induction 1 as [|col cols Hc _ IH]; simpl; [done|].
  rewrite Hc. simpl. destruct (c <=? Z.of_nat (ones col))%Z; simpl; by rewrite IH.
Qed.

Lemma hits_all_excluded k cols : excluded cols = length cols → hits k cols = 0.
Proof. pose proof (hits_excluded_le k cols). lia. Qed.

Lemma has_nan_false col :
  Forall (fun x => Float.isnan x = false) col → has_nan col = false.
Proof.
  unfold has_nan. induction 1 as [|x col Hx _ IH]; simpl; [done|].
  by rewrite Hx.
Qed.

Lemma slice_at_elem m n_view n_point w j x :
  x ∈ slice_at m n_view n_point w j → x ∈ data m.
Proof.
  unfold slice_at. rewrite list_elem_of_omap. intros (v & _ & Hv).
  eapply list_elem_of_lookup_2, Hv.
Qed.

Lemma pairs_no_nan m :
  Forall (fun x => Float.isnan x = false) (data m) →
  Forall (fun col => has_nan col = false) (pairs m).
Proof.
  intros Hd. unfold pairs.
  destruct (shape m) as [|n_view [|n_point [|w [|]]]]; try by constructor.
  apply Forall_fmap, Forall_forall. intros j _. apply has_nan_false.
  apply Forall_forall. intros x Hx. rewrite Forall_forall in Hd.
  apply Hd. eapply (slice_at_elem m n_view n_point w j), Hx.
Qed.

Lemma pairs_lookup m n_view n_point w j col :
  shape m = [n_view; n_point; w] → pairs m !! j = Some col →
  j < n_point ∧ col = slice_at m n_view n_point w j.
Proof.
  intros Hs. rewrite (pairs_rank3 _ _ _ _ Hs), list_lookup_fmap.
  destruct (seq 0 n_point !! j) as [i|] eqn:Hi; [|done].
  apply lookup_seq in Hi as [-> Hj]. simpl. intros [= <-]. done.
Qed.

End CountingFacts.

(** ** Counts as floats *)

Section FloatFacts.

Lemma float_eq_dec_b_true x y : float_eq_dec_b x y = true → x = y.
Proof. apply FloatAxioms.Leibniz.eqb_spec. Qed.

Lemma count_checked : forallb count_ok (seq 0 (S small_bound)) = true.
Proof. vm_compute. reflexivity. Qed.

Lemma add_checked :
  forallb (fun a => forallb (add_ok a) (seq 0 (S small_bound - a)))
          (seq 0 (S small_bound)) = true.
Proof. vm_compute. reflexivity. Qed.

Lemma forallb_upto (P : nat → bool) (B : nat) :
  forallb P (seq 0 (S B)) = true → ∀ n, n ≤ B → P n = true.
Proof.
  intros H n Hn. rewrite forallb_forall in H. apply H, in_seq. lia.
Qed.

Lemma forallb_upto_pairs (P : nat → nat → bool) (B : nat) :
  forallb (fun a => forallb (P a) (seq 0 (S B - a))) (seq 0 (S B)) = true →
  ∀ a b, a + b ≤ B → P a b = true.
Proof.
  intros H a b Hab. rewrite forallb_forall in H.
  assert (Ha : forallb (P a) (seq 0 (S B - a)) = true) by (apply H, in_seq; lia).
  rewrite forallb_forall in Ha. apply Ha, in_seq. lia.
Qed.

(** Up to the bound, [n] additions of [1.0] give [float(n)]. *)
Lemma count_small n :
  n ≤ small_bound → Float.count n = Float.of_Z (Z.of_nat n).
Proof.
  intros Hn. apply float_eq_dec_b_true.
  exact (forallb_upto count_ok small_bound count_checked n Hn).
Qed.

(** Up to the bound, the float sum of two counts is the count of the sum. *)
Lemma add_small a b :
  a + b ≤ small_bound →
  Float.add (Float.of_Z (Z.of_nat a)) (Float.of_Z (Z.of_nat b))
  = Float.of_Z (Z.of_nat (a + b)).
Proof.
  intros Hab. apply float_eq_dec_b_true.
  exact (forallb_upto_pairs add_ok small_bound add_checked a b Hab).
Qed.

Lemma foldl_add_counts counts a :
  a + sum_list counts ≤ small_bound →
  foldl Float.add (Float.of_Z (Z.of_nat a)) (Float.count <$> counts)
  = Float.of_Z (Z.of_nat (a + sum_list counts)).
Proof.
  revert a. induction counts as [|n counts IH]; intros a Ha; csimpl in *.
  - by rewrite Nat.add_0_r.
  - rewrite count_small, add_small by lia. rewrite IH by lia.
    do 2 f_equal. lia.
Qed.

Lemma py_sum_counts counts :
  sum_list counts ≤ small_bound →
  py_sum (Float.count <$> counts) = Float.of_Z (Z.of_nat (sum_list counts)).
Proof. intros H. apply (foldl_add_counts counts 0). simpl. lia. Qed.

End FloatFacts.

(** * Claims about [get_valid_views_stats] *)

(** C2. For a mask of shape [n_view, n_point, 1], the loop leaves
    [total_pairs] at [n_point] minus the number of points whose slice holds
    a NaN; the raw bucket [k] is the count of the slices that hold no NaN
    and have [k] ones, so a NaN-marked point is in no bucket; and the
    iteration on such a point changes nothing but [total_pairs]. *)
Theorem nan_pairs_hard_excluded
    (points_mask : ndarray) (n_view n_point : nat) (concerned_n_view : Z) :
  shape points_mask = [n_view; n_point; 1] →
  ∃ valid_stats_dict total_pairs,
    count_valid_views points_mask concerned_n_view
      = Ok (valid_stats_dict, total_pairs)
    ∧ total_pairs
      = (Z.of_nat n_point - Z.of_nat (excluded (pairs points_mask)))%Z
    ∧ Dict.keys valid_stats_dict = range concerned_n_view
    ∧ (∀ k, (0 ≤ k < concerned_n_view)%Z →
         Dict.get valid_stats_dict k
         = Some (Float.count (hits k (pairs points_mask))))
    ∧ (∀ j col d t,
         pairs points_mask !! j = Some col → has_nan col = true →
         stats_step points_mask (d, t) j = Ok (d, (t - 1)%Z)).
Proof.
  intros Hs. eexists _, _. split; [|split; [|split; [|split]]].
  - apply (count_valid_views_spec _ _ _ _ _ Hs). lia.
  - done.
  - apply keys_tabulate.
  - intros k Hk. unfold histogram. rewrite get_tabulate.
    by rewrite bool_decide_eq_true_2 by (by apply elem_of_range).
  - intros j col d t Hj Hnan.
    destruct (pairs_lookup _ _ _ _ _ _ Hs Hj) as [Hlt ->].
    unfold stats_step.
    rewrite (getitem_pair_rank3 _ _ _ _ _ Hs Hlt) by lia.
    change (Ok ?x ≫= ?f) with (f x). cbv beta.
    by rewrite marked_by_nan_has_nan, Hnan.
Qed.

Lemma nan_pairs_hard_excluded_witness :
  pairs nan_marked_mask !! 1 = Some [fnan; f1]
  ∧ has_nan [fnan; f1] = true
  ∧ excluded (pairs nan_marked_mask) = 1
  ∧ ∃ valid_stats_dict total_pairs,
      count_valid_views nan_marked_mask 3 = Ok (valid_stats_dict, total_pairs)
      ∧ total_pairs = 2%Z
      ∧ Dict.get valid_stats_dict 1 = Some (Float.count 2)
      ∧ stats_step nan_marked_mask (valid_stats_dict, 3%Z) 1
        = Ok (valid_stats_dict, 2%Z).
Proof.
  split; [reflexivity|]. split; [reflexivity|]. split; [reflexivity|].
  destruct (nan_pairs_hard_excluded nan_marked_mask 2 3 3 eq_refl)
    as (valid_stats_dict & total_pairs & Hcount & Htotal & _ & Hget & Hstep).
  exists valid_stats_dict, total_pairs.
  split; [exact Hcount|]. split; [exact Htotal|]. split.
  - apply (Hget 1%Z). lia.
  - apply (Hstep 1 [fnan; f1] valid_stats_dict 3%Z); reflexivity.
Defined.

(** C3. For a mask of shape [n_view, n_point, 1] the function never
    raises. With [return_rate] and a positive [total_pairs] every bucket is
    its raw count divided by [float(total_pairs)]; with [total_pairs = 0]
    the raw counts come back, all [0.0], whatever [return_rate] is. *)
Theorem rate_division_guarded
    (points_mask : ndarray) (n_view n_point : nat) (concerned_n_view : Z) :
  shape points_mask = [n_view; n_point; 1] →
  ∃ raw total_pairs,
    count_valid_views points_mask concerned_n_view = Ok (raw, total_pairs)
    ∧ (0 ≤ total_pairs)%Z
    ∧ get_valid_views_stats points_mask concerned_n_view false
      = Ok (raw, Dict.items raw)
    ∧ ((0 < total_pairs)%Z →
         get_valid_views_stats points_mask concerned_n_view true
         = Ok (scaled total_pairs raw, Dict.items (scaled total_pairs raw)))
    ∧ (total_pairs = 0%Z →
         get_valid_views_stats points_mask concerned_n_view true
         = Ok (raw, Dict.items raw)
         ∧ Forall (fun v => v = Float.zero) (Dict.values raw)).
Proof.
  intros Hs.
  assert (Hc := count_valid_views_spec _ _ _ _ concerned_n_view Hs (Nat.lt_0_1)).
  pose proof (excluded_le (pairs points_mask)) as Hle.
  rewrite (length_pairs _ _ _ _ Hs) in Hle.
  eexists _, _. split; [exact Hc|]. split; [lia|].
  unfold get_valid_views_stats. rewrite Hc.
  change (Ok ?x ≫= ?f) with (f x). cbv beta iota.
  split; [done|]. split.
  - intros Hpos.
    destruct (Z.ltb_spec 0 (Z.of_nat n_point - Z.of_nat (excluded (pairs points_mask))));
      [|lia].
    cbn [andb]. unfold histogram.
    rewrite to_rate_tabulate by (lia || apply range_NoDup). done.
  - intros Hzero. rewrite Hzero. cbn [andb Z.ltb Z.compare]. split; [done|].
    unfold histogram. rewrite values_tabulate. apply Forall_fmap, Forall_forall.
    intros k _. simpl. rewrite hits_all_excluded; [done|].
    rewrite (length_pairs _ _ _ _ Hs). lia.
Qed.

Lemma rate_division_guarded_witness :
  ∃ raw total_pairs,
    count_valid_views (full [3; 2; 1] fnan) 3 = Ok (raw, total_pairs)
    ∧ (0 ≤ total_pairs)%Z
    ∧ get_valid_views_stats (full [3; 2; 1] fnan) 3 false
      = Ok (raw, Dict.items raw)
    ∧ ((0 < total_pairs)%Z →
         get_valid_views_stats (full [3; 2; 1] fnan) 3 true
         = Ok (scaled total_pairs raw, Dict.items (scaled total_pairs raw)))
    ∧ (total_pairs = 0%Z →
         get_valid_views_stats (full [3; 2; 1] fnan) 3 true
         = Ok (raw, Dict.items raw)
         ∧ Forall (fun v => v = Float.zero) (Dict.values raw)).
Proof. apply (rate_division_guarded (full [3; 2; 1] fnan) 3 2 3). reflexivity. Defined.

(** C5. On a point whose slice holds no NaN, [n_valid] is the number of
    entries equal to [1.0]; the iteration adds [1.0] to bucket [n_valid]
    when [n_valid < concerned_n_view] and leaves the dictionary alone
    otherwise, and in both cases [total_pairs] is kept. On the concrete
    scenario the raw histogram is [0.0, 0.0, 1.0]. *)
Theorem valid_view_count_bucket_rule
    (points_mask : ndarray) (n_view n_point : nat) (concerned_n_view : Z)
    (valid_stats_dict : Dict.t) (total_pairs : Z) (j : nat) (col : list Float.t) :
  shape points_mask = [n_view; n_point; 1] →
  Dict.keys valid_stats_dict = range concerned_n_view →
  pairs points_mask !! j = Some col →
  has_nan col = false →
  let n_valid := Z.of_nat (ones col) in
  n_valid_of col = ones col
  ∧ ((n_valid < concerned_n_view)%Z →
       ∃ v, Dict.get valid_stats_dict n_valid = Some v
            ∧ stats_step points_mask (valid_stats_dict, total_pairs) j
              = Ok (Dict.set valid_stats_dict n_valid (Float.add v Float.one),
                    total_pairs))
  ∧ ((concerned_n_view ≤ n_valid)%Z →
       stats_step points_mask (valid_stats_dict, total_pairs) j
       = Ok (valid_stats_dict, total_pairs))
  ∧ get_valid_views_stats scenario_mask 3 false
    = Ok ([(0%Z, Float.zero); (1%Z, Float.zero); (2%Z, Float.one)],
          [(0%Z, Float.zero); (1%Z, Float.zero); (2%Z, Float.one)]).
Proof.
  intros Hs Hkeys Hj Hnan n_valid.
  destruct (pairs_lookup _ _ _ _ _ _ Hs Hj) as [Hlt Hcol].
  assert (Hstep : stats_step points_mask (valid_stats_dict, total_pairs) j
                  = if Dict.mem valid_stats_dict n_valid
                    then v ← Dict.getitem valid_stats_dict n_valid;
                         Ok (Dict.set valid_stats_dict n_valid (Float.add v Float.one),
                             total_pairs)
                    else Ok (valid_stats_dict, total_pairs)).
  { unfold stats_step.
    rewrite (getitem_pair_rank3 _ _ _ _ _ Hs Hlt) by lia. rewrite <- Hcol.
    change (Ok col ≫= ?f) with (f col). cbv beta.
    by rewrite marked_by_nan_has_nan, Hnan, n_valid_of_ones. }
  assert (Hmem : Dict.mem valid_stats_dict n_valid
                 = bool_decide (0 ≤ n_valid < concerned_n_view)%Z).
  { rewrite mem_keys, Hkeys. apply bool_decide_ext, elem_of_range. }
  split; [apply n_valid_of_ones|]. split; [|split].
  - intros Hlt'. rewrite Hstep.
    assert (Hm : Dict.mem valid_stats_dict n_valid = true).
    { rewrite Hmem. apply bool_decide_eq_true_2. unfold n_valid. lia. }
    rewrite Hm. destruct (mem_get _ _ Hm) as [v Hv]. exists v. split; [done|].
    unfold Dict.getitem. by rewrite Hv.
  - intros Hge. rewrite Hstep, Hmem.
    by rewrite bool_decide_eq_false_2 by lia.
  - vm_compute. reflexivity.
Qed.

Lemma valid_view_count_bucket_rule_witness :
  n_valid_of [f1; f0; f1] = ones [f1; f0; f1]
  ∧ ((Z.of_nat (ones [f1; f0; f1]) < 3)%Z →
       ∃ v, Dict.get (__init_valid_views_dict__ 3) (Z.of_nat (ones [f1; f0; f1])) = Some v
            ∧ stats_step scenario_mask (__init_valid_views_dict__ 3, 4%Z) 2
              = Ok (Dict.set (__init_valid_views_dict__ 3) (Z.of_nat (ones [f1; f0; f1]))
                      (Float.add v Float.one), 4%Z))
  ∧ ((3 ≤ Z.of_nat (ones [f1; f0; f1]))%Z →
       stats_step scenario_mask (__init_valid_views_dict__ 3, 4%Z) 2
       = Ok (__init_valid_views_dict__ 3, 4%Z))
  ∧ get_valid_views_stats scenario_mask 3 false
    = Ok ([(0%Z, Float.zero); (1%Z, Float.zero); (2%Z, Float.one)],
          [(0%Z, Float.zero); (1%Z, Float.zero); (2%Z, Float.one)]).
Proof.
  apply (valid_view_count_bucket_rule scenario_mask 3 4 3
           (__init_valid_views_dict__ 3) 4%Z 2 [f1; f0; f1]);
    reflexivity.
Defined.

(** C6. For a mask of shape [n_view, n_point, 1] without NaN, in raw-count
    mode: the bucket values are the floats of counts that, together with
    the number of points whose valid views reach [concerned_n_view], add up
    to [n_point]; and up to [small_bound] points the same holds of the
    float sum [sum(values) + beyond == n_point] itself. *)
Theorem histogram_accounts_for_every_pair
    (points_mask : ndarray) (n_view n_point : nat) (concerned_n_view : Z) :
  shape points_mask = [n_view; n_point; 1] →
  Forall (fun x => Float.isnan x = false) (data points_mask) →
  let beyond :=
    length (List.filter (fun col => (concerned_n_view <=? Z.of_nat (ones col))%Z)
                        (pairs points_mask)) in
  ∃ valid_stats_dict counts,
    get_valid_views_stats points_mask concerned_n_view false
      = Ok (valid_stats_dict, Dict.items valid_stats_dict)
    ∧ Dict.keys valid_stats_dict = range concerned_n_view
    ∧ Dict.values valid_stats_dict = Float.count <$> counts
    ∧ sum_list counts + beyond = n_point
    ∧ (n_point ≤ small_bound →
         Float.add (py_sum (Dict.values valid_stats_dict))
                   (Float.of_Z (Z.of_nat beyond))
         = Float.of_Z (Z.of_nat n_point)).
Proof.
  intros Hs Hnan beyond.
  assert (Hc := count_valid_views_spec _ _ _ _ concerned_n_view Hs (Nat.lt_0_1)).
  pose proof (pairs_no_nan _ Hnan) as Hcols.
  pose proof (slices_partition concerned_n_view (pairs points_mask)) as Hpart.
  rewrite (excluded_no_nan _ Hcols), (uncounted_no_nan _ _ Hcols) in Hpart.
  rewrite (length_pairs _ _ _ _ Hs), Nat.add_0_r in Hpart. fold beyond in Hpart.
  exists (histogram concerned_n_view (pairs points_mask)),
         ((fun k => hits k (pairs points_mask)) <$> range concerned_n_view).
  split; [|split; [|split; [|split]]].
  - unfold get_valid_views_stats. by rewrite Hc.
  - apply keys_tabulate.
  - unfold histogram. rewrite values_tabulate. by rewrite <- list_fmap_compose.
  - exact Hpart.
  - intros Hsmall. unfold histogram. rewrite values_tabulate.
    rewrite (list_fmap_compose (fun k => hits k (pairs points_mask)) Float.count).
    rewrite py_sum_counts by lia. rewrite add_small by lia. by rewrite Hpart.
Qed.

Lemma histogram_accounts_for_every_pair_witness :
  ∃ valid_stats_dict counts,
    get_valid_views_stats five_point_mask 3 false
      = Ok (valid_stats_dict, Dict.items valid_stats_dict)
    ∧ Dict.keys valid_stats_dict = range 3
    ∧ Dict.values valid_stats_dict = Float.count <$> counts
    ∧ sum_list counts
      + length (List.filter (fun col => (3 <=? Z.of_nat (ones col))%Z)
                            (pairs five_point_mask)) = 5
    ∧ (5 ≤ small_bound →
         Float.add (py_sum (Dict.values valid_stats_dict))
                   (Float.of_Z (Z.of_nat
                      (length (List.filter (fun col => (3 <=? Z.of_nat (ones col))%Z)
                                           (pairs five_point_mask)))))
         = Float.of_Z (Z.of_nat 5)).
Proof.
  apply (histogram_accounts_for_every_pair five_point_mask 3 5 3);
    [reflexivity | repeat constructor].
Defined.

(** * Claims about [prepare_triangulate_input] *)

Section PrepareFacts.

Implicit Types (p m a : ndarray) (cam : Z) (s lead : list nat).

Lemma shape_last_cons n s : Np.shape_last (n :: s) = Ok (default 0 (last (n :: s))).
Proof.
  unfold Np.shape_last. destruct (last (n :: s)) eqn:H; [done|].
  by apply last_None in H.
Qed.

(** The three checks, once both arguments are arrays of rank at least 1. *)
Lemma prepare_arrays cam points points_mask p m n_p rest_p n_m rest_m :
  as_array points = Some p → as_array points_mask = Some m →
  shape p = n_p :: rest_p → shape m = n_m :: rest_m →
  prepare_triangulate_input cam points points_mask =
    if negb ((n_p =? n_m) && (Z.of_nat n_p =? cam)%Z)
    then Raise (ValueError ViewCountMismatch)
    else if width p <? 2
    then Raise (ValueError CoordWidthTooSmall)
    else if negb (bool_decide (removelast (shape p) = removelast (shape m)))
            || negb (width m =? 1)
    then Raise (ValueError MaskShapeMismatch)
    else Ok (p, m).
Proof.
  intros Hp Hm Hsp Hsm. unfold prepare_triangulate_input, width.
  assert (Hp' : match match points with
                      | PyList a | PyTuple a => PyArray a
                      | o => o
                      end with
                | PyArray a => Ok a
                | _ => Raise TypeError
                end = Ok p).
  { destruct points; simpl in Hp; by simplify_eq. }
  rewrite Hp'. change (Ok p ≫= ?f) with (f p). cbv beta.
  assert (Hm' : match points_mask with
                | PyNone =>
                    sl ← Np.getitem_ellipsis_0_1 p; Ok (PyArray (Np.ones_like sl))
                | PyList a | PyTuple a => Ok (PyArray a)
                | o => Ok o
                end ≫= (fun points_mask => match points_mask with
                                           | PyArray a => Ok a
                                           | _ => Raise TypeError
                                           end) = Ok m).
  { destruct points_mask; simpl in Hm; by simplify_eq. }
  revert Hm'. generalize (match points_mask with
                | PyNone =>
                    sl ← Np.getitem_ellipsis_0_1 p; Ok (PyArray (Np.ones_like sl))
                | PyList a | PyTuple a => Ok (PyArray a)
                | o => Ok o
                end). intros r Hr.
  destruct r as [o|e]; [|done]. change (Ok o ≫= ?f) with (f o) in *. cbv beta in *.
  rewrite Hr. change (Ok m ≫= ?f) with (f m). cbv beta.
  rewrite Hsp, Hsm. cbn [Np.shape_first]. change (Ok ?x ≫= ?f) with (f x). cbv beta.
  change (Ok ?x ≫= ?f) with (f x). cbv beta.
  destruct (negb ((n_p =? n_m) && (Z.of_nat n_p =? cam)%Z)); [done|].
  rewrite !shape_last_cons. change (Ok ?x ≫= ?f) with (f x). cbv beta.
  destruct (default 0 (last (n_p :: rest_p)) <? 2); [done|].
  change (Ok ?x ≫= ?f) with (f x). cbv beta. done.
Qed.

Lemma prepare_none cam points p n rest :
  as_array points = Some p → shape p = n :: rest →
  prepare_triangulate_input cam points PyNone
  = prepare_triangulate_input cam points (PyArray (default_mask p)).
Proof.
  intros Hp Hsp. unfold prepare_triangulate_input.
  assert (Hp' : match match points with
                      | PyList a | PyTuple a => PyArray a
                      | o => o
                      end with
                | PyArray a => Ok a
                | _ => Raise TypeError
                end = Ok p).
  { destruct points; simpl in Hp; by simplify_eq. }
  rewrite Hp'. change (Ok p ≫= ?f) with (f p). cbv beta.
  unfold Np.getitem_ellipsis_0_1, default_mask, width, full, Np.ones_like.
  rewrite Hsp. destruct (last (n :: rest)) eqn:Hl; [done|].
  by apply last_None in Hl.
Qed.

Lemma shape_default_mask p : 
  shape (default_mask p) = removelast (shape p) ++ [Nat.min 1 (width p)].
Proof. done. Qed.

Lemma removelast_snoc {A} (l : list A) (x : A) : removelast (l ++ [x]) = l.
Proof. apply removelast_last. Qed.

Lemma default_mask_first p n rest :
  shape p = n :: rest →
  ∃ n' rest', shape (default_mask p) = n' :: rest'
              ∧ (rest ≠ [] → n' = n)
              ∧ (rest = [] → n' = Nat.min 1 n).
Proof.
  intros Hs. rewrite shape_default_mask. unfold width. rewrite Hs.
  destruct rest as [|r rest].
  - simpl. eexists _, _. split; [done|]. split; done.
  - change (removelast (n :: r :: rest)) with (n :: removelast (r :: rest)).
    eexists _, _. split; [done|]. split; done.
Qed.

End PrepareFacts.

(** C4. Once points and mask are arrays of rank at least 1, the checks
    run in the order view count, coordinate width, mask shape, and the
    first one violated decides the error, whatever the later ones would
    say; all three satisfied, the call succeeds. In particular points of
    leading length 2 with [camera_number = 3] fail with ViewCountMismatch
    and points of last-axis width 1 with matching view count fail with
    CoordWidthTooSmall, with a mask given or omitted. *)
Theorem prepare_checks_in_order
    (camera_number : Z) (points points_mask : pyobj) (p m : ndarray)
    (n_p n_m : nat) (rest_p rest_m : list nat) :
  as_array points = Some p → as_array points_mask = Some m →
  shape p = n_p :: rest_p → shape m = n_m :: rest_m →
  let r := prepare_triangulate_input camera_number points points_mask in
  (¬ (n_p = n_m ∧ Z.of_nat n_p = camera_number) →
     r = Raise (ValueError ViewCountMismatch))
  ∧ (n_p = n_m → Z.of_nat n_p = camera_number → width p < 2 →
     r = Raise (ValueError CoordWidthTooSmall))
  ∧ (n_p = n_m → Z.of_nat n_p = camera_number → 2 ≤ width p →
     removelast (shape p) ≠ removelast (shape m) ∨ width m ≠ 1 →
     r = Raise (ValueError MaskShapeMismatch))
  ∧ (n_p = n_m → Z.of_nat n_p = camera_number → 2 ≤ width p →
     removelast (shape p) = removelast (shape m) → width m = 1 →
     r = Ok (p, m))
  ∧ (n_p = 2 →
     prepare_triangulate_input 3 points points_mask
       = Raise (ValueError ViewCountMismatch)
     ∧ prepare_triangulate_input 3 points PyNone
       = Raise (ValueError ViewCountMismatch))
  ∧ (width p = 1 → Z.of_nat n_p = camera_number →
     (n_m = n_p → r = Raise (ValueError CoordWidthTooSmall))
     ∧ prepare_triangulate_input camera_number points PyNone
       = Raise (ValueError CoordWidthTooSmall)).
Proof.
  intros Hp Hm Hsp Hsm r.
  assert (Hr := prepare_arrays camera_number _ _ _ _ _ _ _ _ Hp Hm Hsp Hsm).
  fold r in Hr.
  split; [|split; [|split; [|split; [|split]]]].
  - intros Hv. rewrite Hr.
    destruct (Nat.eqb_spec n_p n_m); destruct (Z.eqb_spec (Z.of_nat n_p) camera_number);
      simpl; try done. exfalso. by apply Hv.
  - intros -> Hc Hw. rewrite Hr, Nat.eqb_refl.
    destruct (Z.eqb_spec (Z.of_nat n_m) camera_number); [|done]. simpl.
    destruct (Nat.ltb_spec (width p) 2); [done|lia].
  - intros -> Hc Hw Hbad. rewrite Hr, Nat.eqb_refl.
    destruct (Z.eqb_spec (Z.of_nat n_m) camera_number); [|done]. simpl.
    destruct (Nat.ltb_spec (width p) 2); [lia|].
    destruct Hbad as [Hbad|Hbad].
    + by rewrite bool_decide_eq_false_2.
    + destruct (Nat.eqb_spec (width m) 1); [done|]. simpl. by rewrite orb_true_r.
  - intros -> Hc Hw Hlead Hwm. rewrite Hr, Nat.eqb_refl.
    destruct (Z.eqb_spec (Z.of_nat n_m) camera_number); [|done]. simpl.
    destruct (Nat.ltb_spec (width p) 2); [lia|].
    rewrite bool_decide_eq_true_2 by done. by rewrite Hwm.
  - intros ->. split.
    + rewrite (prepare_arrays 3 _ _ _ _ _ _ _ _ Hp Hm Hsp Hsm).
      simpl. by rewrite andb_false_r.
    + rewrite (prepare_none 3 _ _ _ _ Hp Hsp).
      destruct (default_mask_first _ _ _ Hsp) as (n' & rest' & Hd & _ & _).
      rewrite (prepare_arrays 3 _ (PyArray (default_mask p)) _ _ _ _ _ _ Hp eq_refl Hsp Hd).
      simpl. by rewrite andb_false_r.
  - intros Hw Hc. split.
    + intros ->. rewrite Hr, Nat.eqb_refl.
      destruct (Z.eqb_spec (Z.of_nat n_p) camera_number); [|done]. simpl.
      by rewrite Hw.
    + rewrite (prepare_none camera_number _ _ _ _ Hp Hsp).
      destruct (default_mask_first _ _ _ Hsp) as (n' & rest' & Hd & Hne & Hnil).
      rewrite (prepare_arrays camera_number _ (PyArray (default_mask p))
                 _ _ _ _ _ _ Hp eq_refl Hsp Hd).
      assert (n' = n_p) as ->.
      { destruct rest_p as [|x rest_p]; [|by apply Hne].
        rewrite Hnil by done. unfold width in Hw. rewrite Hsp in Hw. simpl in Hw.
        subst n_p. done. }
      rewrite Nat.eqb_refl.
      destruct (Z.eqb_spec (Z.of_nat n_p) camera_number); [|done]. simpl.
      by rewrite Hw.
Qed.

Lemma prepare_checks_in_order_witness :
  let p := full [2; 4; 1] f0 in
  let m := full [2; 4; 3] f1 in
  let r := prepare_triangulate_input 2 (PyArray p) (PyList m) in
  (¬ (2 = 2 ∧ Z.of_nat 2 = 2%Z) → r = Raise (ValueError ViewCountMismatch))
  ∧ (2 = 2 → Z.of_nat 2 = 2%Z → width p < 2 →
     r = Raise (ValueError CoordWidthTooSmall))
  ∧ (2 = 2 → Z.of_nat 2 = 2%Z → 2 ≤ width p →
     removelast (shape p) ≠ removelast (shape m) ∨ width m ≠ 1 →
     r = Raise (ValueError MaskShapeMismatch))
  ∧ (2 = 2 → Z.of_nat 2 = 2%Z → 2 ≤ width p →
     removelast (shape p) = removelast (shape m) → width m = 1 →
     r = Ok (p, m))
  ∧ (2 = 2 →
     prepare_triangulate_input 3 (PyArray p) (PyList m)
       = Raise (ValueError ViewCountMismatch)
     ∧ prepare_triangulate_input 3 (PyArray p) PyNone
       = Raise (ValueError ViewCountMismatch))
  ∧ (width p = 1 → Z.of_nat 2 = 2%Z →
     (2 = 2 → r = Raise (ValueError CoordWidthTooSmall))
     ∧ prepare_triangulate_input 2 (PyArray p) PyNone
       = Raise (ValueError CoordWidthTooSmall)).
Proof.
  exact (prepare_checks_in_order 2 (PyArray (full [2; 4; 1] f0)) (PyList (full [2; 4; 3] f1))
           (full [2; 4; 1] f0) (full [2; 4; 3] f1) 2 2 [4; 1] [4; 3]
           eq_refl eq_refl eq_refl eq_refl).
Defined.

Section PrepareSuccess.

Implicit Types (p m : ndarray) (cam : Z).

Lemma prepare_not_array cam points points_mask :
  as_array points = None →
  prepare_triangulate_input cam points points_mask = Raise TypeError.
Proof. destruct points; done. Qed.

Lemma prepare_rank0 cam points points_mask p :
  as_array points = Some p → shape p = [] →
  is_ok (prepare_triangulate_input cam points points_mask) = false.
Proof.
  intros Hp Hs. unfold prepare_triangulate_input.
  destruct points; simpl in Hp; simplify_eq;
    destruct points_mask as [|m|m|m|sa]; simpl;
    unfold Np.getitem_ellipsis_0_1; rewrite ?Hs; done.
Qed.

Lemma prepare_mask_rank0 cam points points_mask p m :
  as_array points = Some p → as_array points_mask = Some m → shape m = [] →
  is_ok (prepare_triangulate_input cam points points_mask) = false.
Proof.
  intros Hp Hm Hs. unfold prepare_triangulate_input.
  destruct points; simpl in Hp; simplify_eq;
    destruct points_mask; simpl in Hm; simplify_eq; simpl;
    rewrite Hs; by destruct (shape p).
Qed.

Lemma prepare_mask_other cam points shape_attr :
  is_ok (prepare_triangulate_input cam points (PyOther shape_attr)) = false.
Proof. destruct points; done. Qed.

(** What a successful call with an array mask has checked. *)
Lemma prepare_arrays_ok cam points points_mask p m r :
  as_array points = Some p → as_array points_mask = Some m →
  prepare_triangulate_input cam points points_mask = Ok r →
  r = (p, m) ∧ 2 ≤ width p ∧ width m = 1
  ∧ removelast (shape p) = removelast (shape m).
Proof.
  intros Hp Hm Hr.
  destruct (shape p) as [|n_p rest_p] eqn:Hsp.
  { pose proof (prepare_rank0 cam _ points_mask _ Hp Hsp) as H.
    by rewrite Hr in H. }
  destruct (shape m) as [|n_m rest_m] eqn:Hsm.
  { pose proof (prepare_mask_rank0 cam _ _ _ _ Hp Hm Hsm) as H.
    by rewrite Hr in H. }
  rewrite (prepare_arrays cam _ _ _ _ _ _ _ _ Hp Hm Hsp Hsm) in Hr.
  destruct (negb _); [done|].
  destruct (Nat.ltb_spec (width p) 2); [done|].
  rewrite Hsp, Hsm in Hr.
  case_bool_decide as Hl; [|done]. simpl in Hr.
  destruct (Nat.eqb_spec (width m) 1); [|done]. simpl in Hr.
  by simplify_eq.
Qed.

End PrepareSuccess.



(** * Claims about [parse_keypoints_mask] *)

Section ParseFacts.

Implicit Types (a m : ndarray) (lead : list nat) (K d : nat).

Lemma two_snoc lead K d : lead ++ [K; d] = (lead ++ [K]) ++ [d].
Proof. by rewrite <- app_assoc. Qed.

Lemma last_two lead K d : last (lead ++ [K; d]) = Some d.
Proof. by rewrite two_snoc, last_snoc. Qed.

Lemma removelast_two lead K d : removelast (lead ++ [K; d]) = lead ++ [K].
Proof. by rewrite two_snoc, removelast_snoc. Qed.

Lemma penult_two lead K d : Np.shape_penult (lead ++ [K; d]) = Ok K.
Proof. unfold Np.shape_penult. by rewrite removelast_two, last_snoc. Qed.

Lemma size_app s s' : size (s ++ s') = size s * size s'.
Proof.
  unfold size. induction s as [|n s IH]; simpl; [lia|]. rewrite IH. lia.
Qed.

Lemma parse_rank0 a keypoints_mask :
  shape a = [] → parse_keypoints_mask (PyArray a) keypoints_mask = Raise IndexError.
Proof. intros Hs. unfold parse_keypoints_mask. simpl. by rewrite Hs. Qed.

(** A vector: the synthesized mask has leading length [min 1 n]. *)
Lemma parse_rank1 a n keypoints_mask :
  shape a = [n] →
  parse_keypoints_mask (PyArray a) keypoints_mask
  = if 2 <=? n then Raise (ValueError ViewCountMismatch)
    else Raise (ValueError CoordWidthTooSmall).
Proof.
  intros Hs. unfold parse_keypoints_mask. simpl. rewrite Hs. simpl.
  change (Ok ?x ≫= ?f) with (f x). cbv beta.
  rewrite (prepare_none _ (PyArray a) a n [] eq_refl Hs).
  assert (Hd : shape (default_mask a) = [Nat.min 1 n]).
  { rewrite shape_default_mask. unfold width. by rewrite Hs. }
  rewrite (prepare_arrays _ (PyArray a) (PyArray (default_mask a)) a (default_mask a)
             n [] (Nat.min 1 n) [] eq_refl eq_refl Hs Hd).
  rewrite Z.eqb_refl. unfold width. rewrite Hs. simpl.
  destruct n as [|[|n]]; done.
Qed.

(** The delegated normalization on an array of rank at least 2. *)
Lemma prepare_rank2 a lead K d n rest :
  shape a = lead ++ [K; d] → shape a = n :: rest →
  prepare_triangulate_input (Z.of_nat n) (PyArray a) PyNone
  = if d <? 2 then Raise (ValueError CoordWidthTooSmall)
    else Ok (a, astype (dtype a) (full (lead ++ [K; 1]) Float.one)).
Proof.
  intros Hs Hn.
  rewrite (prepare_none _ (PyArray a) a n rest eq_refl Hn).
  assert (Hw : width a = d) by (unfold width; by rewrite Hs, last_two).
  assert (Hrest : rest ≠ []).
  { intros ->. rewrite Hs in Hn. destruct lead as [|x [|y lead]]; done. }
  destruct (default_mask_first _ _ _ Hn) as (n' & rest' & Hd & Hne & _).
  rewrite (Hne Hrest) in Hd.
  rewrite (prepare_arrays _ (PyArray a) (PyArray (default_mask a)) a (default_mask a)
             n rest n rest' eq_refl eq_refl Hn Hd).
  rewrite Nat.eqb_refl, Z.eqb_refl, Hw. simpl.
  destruct (Nat.ltb_spec d 2); [done|].
  assert (Hm : default_mask a = astype (dtype a) (full (lead ++ [K; 1]) Float.one)).
  { unfold default_mask. rewrite Hw, Hs, removelast_two.
    replace (Nat.min 1 d) with 1 by lia. by rewrite <- two_snoc. }
  rewrite Hm. unfold astype, full at 1 2. cbn [shape]. unfold width. cbn [shape].
  rewrite Hs, ?removelast_two, ?removelast_snoc, ?last_two. simpl.
  rewrite ?removelast_snoc, ?last_two.
  by rewrite bool_decide_eq_true_2.
Qed.

Lemma size_lead_K1 lead K : size (lead ++ [K; 1]) = size lead * K.
Proof. rewrite size_app. unfold size. simpl. lia. Qed.

(** Every path of [parse_keypoints_mask] on an array of rank at least 2. *)
Lemma parse_rank2 a lead K d keypoints_mask :
  shape a = lead ++ [K; d] →
  parse_keypoints_mask (PyArray a) keypoints_mask
  = if d <? 2 then Raise (ValueError CoordWidthTooSmall)
    else match keypoints_mask with
         | PyArray m =>
             match shape m with
             | [] => Raise IndexError
             | M :: _ =>
                 if negb (K =? M) then Raise (ValueError KeypointCountMismatch)
                 else if K =? 0 then Raise ReshapeError
                 else match dtype a with
                      | int64 => Raise CastError
                      | float64 =>
                          if forallb (fun j => j <? K) (Np.where_eq0_first m)
                          then Ok {| dtype := float64;
                                     shape := lead ++ [K; 1];
                                     data := masked_data lead K (Np.where_eq0_first m) |}
                          else Raise IndexError
                      end
             end
         | PyOther (Some []) => Raise IndexError
         | PyOther (Some (M :: _)) =>
             if negb (K =? M) then Raise (ValueError KeypointCountMismatch)
             else Raise OutOfModel
         | _ => Raise AttributeError
         end.
Proof.
  intros Hs. unfold parse_keypoints_mask. cbn [attr_shape].
  change (Ok ?x ≫= ?f) with (f x). cbv beta.
  destruct (shape a) as [|n rest] eqn:Hn.
  { destruct lead; done. }
  cbn [Np.shape_first]. change (Ok ?x ≫= ?f) with (f x). cbv beta.
  rewrite (prepare_rank2 a lead K d n rest) by (by rewrite Hn).
  destruct (d <? 2); [done|].
  change (Ok ?x ≫= ?f) with (f x). cbv beta iota.
  rewrite Hn, Hs, penult_two. change (Ok ?x ≫= ?f) with (f x). cbv beta.
  destruct keypoints_mask as [|m|m|m|[[|M restm]|]]; try done.
  cbn [attr_shape]. change (Ok ?x ≫= ?f) with (f x). cbv beta.
  destruct (shape m) as [|M restm] eqn:Hm; [done|].
  cbn [Np.shape_first]. change (Ok ?x ≫= ?f) with (f x). cbv beta.
  destruct (negb (K =? M)); [done|].
  change (Ok ?x ≫= ?f) with (f x). cbv beta.
  unfold astype, full. cbn [shape dtype data]. rewrite penult_two.
  change (Ok ?x ≫= ?f) with (f x). cbv beta.
  unfold Np.shape_last. rewrite last_two.
  change (Ok ?x ≫= ?f) with (f x). cbv beta.
  unfold Np.reshape_infer. cbn [shape data dtype].
  rewrite size_lead_K1, Nat.mul_1_r.
  destruct (Nat.eqb_spec K 0) as [->|HK]; [done|].
  rewrite Nat.Div0.mod_mul. cbn [orb negb Nat.eqb].
  change (Ok ?x ≫= ?f) with (f x). cbv beta.
  unfold Np.setitem_axis1. cbn [shape data dtype].
  destruct (dtype a); [|done].
  cbn [Np.of_pyfloat]. change (Ok ?x ≫= ?f) with (f x). cbv beta.
  destruct (forallb (fun j => j <? K) (Np.where_eq0_first m)); [|done].
  change (Ok ?x ≫= ?f) with (f x). cbv beta.
  unfold Np.reshape. cbn [shape data dtype].
  rewrite Nat.div_mul by done.
  replace (size [size lead; K; 1] =? size (lead ++ [K; 1])) with true.
  - unfold masked_data. by rewrite size_lead_K1.
  - symmetry. apply Nat.eqb_eq. rewrite size_lead_K1. unfold size. simpl. lia.
Qed.

End ParseFacts.

Section WhereFacts.

Implicit Types (m : ndarray) (v : list Float.t) (j p : nat).

Lemma elem_of_where m j :
  j ∈ Np.where_eq0_first m ↔
  ∃ p x, data m !! p = Some x ∧ Float.eqb x Float.zero = true
         ∧ j = p / size (tail (shape m)).
Proof.
  unfold Np.where_eq0_first. rewrite list_elem_of_omap. split.
  - intros ([p x] & Hin & Hsel).
    apply list_elem_of_lookup in Hin as [i Hi].
    rewrite list_lookup_imap in Hi.
    destruct (data m !! i) as [y|] eqn:Hy; [|done]. simpl in Hi. simplify_eq.
    destruct (Float.eqb x Float.zero) eqn:Hz; [|done]. simplify_eq. eauto.
  - intros (p & x & Hp & Hz & ->). exists (p, x). split.
    + apply list_elem_of_lookup. exists p. by rewrite list_lookup_imap, Hp.
    + by rewrite Hz.
Qed.

(** The indices [np.where] returns lie inside the first axis. *)
Lemma where_bound m M rest :
  wf m → shape m = M :: rest →
  forallb (fun j => j <? M) (Np.where_eq0_first m) = true.
Proof.
  intros Hwf Hs. apply forallb_forall. intros j Hj.
  apply list_elem_of_In, elem_of_where in Hj as (p & x & Hp & _ & ->).
  apply lookup_lt_Some in Hp. rewrite Hwf, Hs in Hp. simpl in *.
  fold (size rest) in Hp. apply Nat.ltb_lt. rewrite Hs. cbn [tail].
  destruct (size rest) as [|s] eqn:Hsz; [lia|].
  apply Nat.Div0.div_lt_upper_bound. lia.
Qed.

Lemma wf_vector v : wf (vector v).
Proof. unfold wf, vector, size. simpl. lia. Qed.

Lemma elem_of_where_vector v j :
  j ∈ Np.where_eq0_first (vector v) ↔
  ∃ x, v !! j = Some x ∧ Float.eqb x Float.zero = true.
Proof.
  rewrite elem_of_where.
  change (size (tail (shape (vector v)))) with 1. change (data (vector v)) with v.
  split.
  - intros (p & x & Hp & Hz & ->). rewrite Nat.div_1_r. eauto.
  - intros (x & Hj & Hz). exists j, x. by rewrite Nat.div_1_r.
Qed.

End WhereFacts.

(** Hard exclusion is broadcast: for float64 keypoints of shape
    [lead + [K, d]] with [d >= 2] and at least one keypoint, and a validity
    vector of length [K], the call returns a mask of shape [lead + [K, 1]]
    whose entry at keypoint [j] is NaN when the validity entry is zero and
    [1.0] otherwise, for every combination [i] of the leading indices. *)
Lemma keypoint_validity_broadcast
    (a : ndarray) (lead : list nat) (K d : nat) (v : list Float.t) :
  dtype a = float64 →
  shape a = lead ++ [K; d] → 2 ≤ d → 0 < K → length v = K →
  ∃ mask,
    parse_keypoints_mask (PyArray a) (PyArray (vector v)) = Ok mask
    ∧ shape mask = lead ++ [K; 1]
    ∧ length (data mask) = size lead * K
    ∧ ∀ i j x, i < size lead → v !! j = Some x →
        data mask !! (i * K + j)
        = Some (if Float.eqb x Float.zero then Float.nan else Float.one).
Proof.
  intros Hdt Hs Hd HK Hv.
  rewrite (parse_rank2 a lead K d _ Hs).
  destruct (Nat.ltb_spec d 2); [lia|].
  change (shape (vector v)) with [length v]. rewrite Hv, Nat.eqb_refl. cbn [negb].
  destruct (Nat.eqb_spec K 0); [lia|]. rewrite Hdt.
  assert (Hb : forallb (fun j => j <? K) (Np.where_eq0_first (vector v)) = true).
  { rewrite <- Hv. apply (where_bound (vector v) (length v) [] (wf_vector v) eq_refl). }
  rewrite Hb.
  eexists. split; [done|]. cbn [shape data]. split; [done|]. split.
  - unfold masked_data. by rewrite length_imap, length_replicate, size_lead_K1.
  - intros i j x Hi Hj. unfold masked_data.
    assert (Hjlt : j < K) by (rewrite <- Hv; by eapply lookup_lt_Some).
    rewrite list_lookup_imap, lookup_replicate_2 by (rewrite size_lead_K1; nia).
    rewrite Nat.div_1_r.
    replace ((i * K + j) mod K) with j
      by (rewrite Nat.add_comm, Nat.Div0.mod_add; by rewrite Nat.mod_small).
    destruct (Float.eqb x Float.zero) eqn:Hz.
    + rewrite bool_decide_eq_true_2; [done|]. apply elem_of_where_vector. eauto.
    + rewrite bool_decide_eq_false_2; [done|]. rewrite elem_of_where_vector.
      intros (y & Hy & Hzy). congruence.
Qed.

(** The specification's example: validity [1, 0, 1] over three keypoints
    and two views. *)
Example keypoint_validity_example :
  parse_keypoints_mask (PyArray (full [2; 3; 2] f0)) (PyArray (vector [f1; f0; f1]))
  = Ok {| dtype := float64; shape := [2; 3; 1];
          data := [f1; fnan; f1; f1; fnan; f1] |}.
Proof. vm_compute. reflexivity. Qed.

(** C1, the failing input. With an empty keypoint axis the validity
    vector of matching length 0 passes the count check, and
    [reshape(-1, 0, 1)] then raises: NumPy cannot infer an extent when the
    known ones multiply to 0. The claim promises a mask of shape
    [2, 0, 1]. *)
Theorem parse_keypoints_mask_empty_keypoint_axis :
  parse_keypoints_mask (PyArray (full [2; 0; 2] f0)) (PyArray (vector []))
  = Raise ReshapeError.
Proof. vm_compute. reflexivity. Qed.

Section ParseErrors.

Implicit Types (a m : ndarray) (keypoints keypoints_mask : pyobj).

(** Every shape of rank at least 2 ends in a keypoint axis and a
    coordinate axis. *)
Lemma rank2_decompose (n n' : nat) (rest : list nat) :
  ∃ lead K d, n :: n' :: rest = lead ++ [K; d].
Proof.
  revert n n'. induction rest as [|r rest IH]; intros n n'.
  - by exists [], n, n'.
  - destruct (IH n' r) as (lead & K & d & Heq).
    exists (n :: lead), K, d. simpl. by rewrite Heq.
Qed.

(** Keypoints without a [shape] attribute. *)
Lemma parse_no_shape keypoints keypoints_mask :
  attr_shape keypoints = Raise AttributeError →
  parse_keypoints_mask keypoints keypoints_mask = Raise AttributeError.
Proof. intros H. unfold parse_keypoints_mask. by rewrite H. Qed.

(** Keypoints that are no ndarray, list nor tuple: with a [shape] of rank
    at least 1 the object reaches the normalization, which rejects its
    type. *)
Lemma parse_other shape_attr keypoints_mask :
  parse_keypoints_mask (PyOther shape_attr) keypoints_mask
  = match shape_attr with
    | None => Raise AttributeError
    | Some [] => Raise IndexError
    | Some (_ :: _) => Raise TypeError
    end.
Proof. by destruct shape_attr as [[|n rest]|]. Qed.

End ParseErrors.

(** C9, the claim as stated fails: on a vector of length 3 the mask
    synthesized from [points[..., 0:1]] has leading length 1, and the
    view-count check fails although [camera_number] is
    [keypoints.shape[0]]. *)
Lemma parse_view_count_mismatch_on_vector :
  parse_keypoints_mask (PyArray (full [3] f0)) (PyArray (vector [f1; f0; f1]))
  = Raise (ValueError ViewCountMismatch).
Proof. vm_compute. reflexivity. Qed.

(** C9, amended. [parse_keypoints_mask] fails with ViewCountMismatch
    exactly on arrays of rank 1 and length at least 2; in particular never
    on an array of rank at least 2, the documented shape, nor on a
    non-array. *)
Theorem parse_view_count_mismatch_iff (keypoints keypoints_mask : pyobj) :
  parse_keypoints_mask keypoints keypoints_mask = Raise (ValueError ViewCountMismatch)
  ↔ ∃ a n, keypoints = PyArray a ∧ shape a = [n] ∧ 2 ≤ n.
Proof.
  split.
  - intros Hr. destruct keypoints as [|a|a|a|sa]; try done.
    2:{ rewrite parse_other in Hr. by destruct sa as [[|? ?]|]. }
    destruct (shape a) as [|n [|n' rest]] eqn:Hs.
    + by rewrite (parse_rank0 _ _ Hs) in Hr.
    + rewrite (parse_rank1 _ _ _ Hs) in Hr.
      destruct (Nat.leb_spec 2 n); [|done]. by exists a, n.
    + destruct (rank2_decompose n n' rest) as (lead & K & d & Heq).
      rewrite Heq in Hs. rewrite (parse_rank2 _ _ _ _ _ Hs) in Hr.
      destruct (d <? 2); [done|].
      destruct keypoints_mask as [|m|m|m|[[|M restm]|]]; try done.
      * destruct (shape m); [done|].
        destruct (negb _); [done|]. destruct (K =? 0); [done|].
        destruct (dtype a); [|done]. by destruct (forallb _ _).
      * by destruct (negb _).
  - intros (a & n & -> & Hs & Hn). rewrite (parse_rank1 _ _ _ Hs).
    by destruct (Nat.leb_spec 2 n); [|lia].
Qed.




(** C10, the claim as stated fails: with [keypoints_mask] omitted, an
    array whose last axis has width 1 is rejected by the delegated
    normalization before [keypoints_mask.shape] is read; and keypoints
    that are no ndarray but have a [shape] of rank 3 pass
    [keypoints.shape[0]] and are rejected by the normalization with
    TypeError, the specification's InvalidInput. *)
Lemma parse_omitted_mask_normalization_first :
  (parse_keypoints_mask (PyArray (full [2; 3; 1] f0)) PyNone
   = Raise (ValueError CoordWidthTooSmall)
   ∧ parse_keypoints_mask (PyArray (full [2; 3; 1] f0)) PyNone
     ≠ Raise AttributeError)
  ∧ (parse_keypoints_mask (PyOther (Some [2; 3; 2])) PyNone = Raise TypeError
     ∧ parse_keypoints_mask (PyOther (Some [2; 3; 2])) PyNone
       ≠ Raise AttributeError).
Proof.
  split; (split; [vm_compute; reflexivity | vm_compute; discriminate]).
Qed.

(** C10, amended. A list or tuple [keypoints] always fails with the
    attribute error, raised at [keypoints.shape], like every object
    without that attribute. An object that is no ndarray but has a
    [shape] fails with IndexError at rank 0 and otherwise with TypeError,
    raised by the normalization. A call that omits [keypoints_mask]
    always fails, never with KeypointCountMismatch: with the attribute
    error when [keypoints] is an array the normalization accepts, with
    TypeError exactly when [keypoints] is no ndarray and has a [shape] of
    rank at least 1, and otherwise with the earlier error (the attribute
    error at [keypoints.shape], IndexError at rank 0, ViewCountMismatch or
    CoordWidthTooSmall from the normalization). *)
Theorem parse_untyped_attribute_errors :
  (∀ a keypoints_mask,
     parse_keypoints_mask (PyList a) keypoints_mask = Raise AttributeError
     ∧ parse_keypoints_mask (PyTuple a) keypoints_mask = Raise AttributeError)
  ∧ (∀ keypoints keypoints_mask,
       attr_shape keypoints = Raise AttributeError →
       parse_keypoints_mask keypoints keypoints_mask = Raise AttributeError)
  ∧ (∀ s keypoints_mask,
       parse_keypoints_mask (PyOther (Some s)) keypoints_mask
       = match s with [] => Raise IndexError | _ :: _ => Raise TypeError end)
  ∧ (∀ a lead K d,
       shape a = lead ++ [K; d] → 2 ≤ d →
       parse_keypoints_mask (PyArray a) PyNone = Raise AttributeError)
  ∧ (∀ keypoints,
       parse_keypoints_mask keypoints PyNone = Raise AttributeError
       ∨ parse_keypoints_mask keypoints PyNone = Raise IndexError
       ∨ parse_keypoints_mask keypoints PyNone = Raise TypeError
       ∨ parse_keypoints_mask keypoints PyNone = Raise (ValueError ViewCountMismatch)
       ∨ parse_keypoints_mask keypoints PyNone = Raise (ValueError CoordWidthTooSmall))
  ∧ (∀ keypoints,
       parse_keypoints_mask keypoints PyNone = Raise TypeError
       ↔ ∃ n rest, keypoints = PyOther (Some (n :: rest))).
Proof.
  split; [done|]. split; [intros; by apply parse_no_shape|].
  split; [intros; by rewrite parse_other|]. split; [|split].
  - intros a lead K d Hs Hd. rewrite (parse_rank2 _ _ _ _ _ Hs).
    by destruct (Nat.ltb_spec d 2); [lia|].
  - intros keypoints. destruct keypoints as [|a|a|a|sa]; try by left.
    2:{ rewrite parse_other. destruct sa as [[|? ?]|]; auto. }
    destruct (shape a) as [|n [|n' rest]] eqn:Hs.
    + right. left. by apply parse_rank0.
    + rewrite (parse_rank1 _ _ _ Hs). destruct (2 <=? n); auto.
    + destruct (rank2_decompose n n' rest) as (lead & K & d & Heq).
      rewrite Heq in Hs. rewrite (parse_rank2 _ _ _ _ _ Hs).
      destruct (d <? 2); auto.
  - intros keypoints. split.
    + intros Hr. destruct keypoints as [|a|a|a|sa]; try done.
      * destruct (shape a) as [|n [|n' rest]] eqn:Hs.
        -- by rewrite (parse_rank0 _ _ Hs) in Hr.
        -- rewrite (parse_rank1 _ _ _ Hs) in Hr. by destruct (2 <=? n).
        -- destruct (rank2_decompose n n' rest) as (lead & K & d & Heq).
           rewrite Heq in Hs. rewrite (parse_rank2 _ _ _ _ _ Hs) in Hr.
           by destruct (d <? 2).
      * rewrite parse_other in Hr. destruct sa as [[|n rest]|]; try done. eauto.
    + intros (n & rest & ->). by rewrite parse_other.
Qed.

Lemma parse_untyped_attribute_errors_witness :
  parse_keypoints_mask (PyArray (full [2; 3; 2] f0)) PyNone = Raise AttributeError.
Proof.
  apply (proj1 (proj2 (proj2 (proj2 parse_untyped_attribute_errors)))
           (full [2; 3; 2] f0) [2] 3 2); [reflexivity | lia].
Defined.

(** * Further properties of [get_valid_views_stats] *)

Section StatsMore.

Implicit Types (m : ndarray) (c k : Z) (cols : list (list Float.t)).

(** On a mask of rank 3 with a non-empty last axis the result is a
    function of the slices. *)
Lemma get_valid_views_stats_slices m n_view n_point w c return_rate :
  shape m = [n_view; n_point; w] → 0 < w →
  get_valid_views_stats m c return_rate
  = stats_of_slices c return_rate n_point (pairs m).
Proof.
  intros Hs Hw. unfold get_valid_views_stats, stats_of_slices.
  rewrite (count_valid_views_spec _ _ _ _ c Hs Hw).
  change (Ok ?x ≫= ?f) with (f x). cbv beta iota zeta.
  pose proof (excluded_le (pairs m)) as Hle.
  rewrite (length_pairs _ _ _ _ Hs) in Hle.
  destruct return_rate; [|done]. cbn [andb].
  destruct (Z.ltb_spec 0 (Z.of_nat n_point - Z.of_nat (excluded (pairs m)))); [|done].
  unfold histogram. by rewrite to_rate_tabulate by (lia || apply range_NoDup).
Qed.

Lemma keys_scaled total (d : Dict.t) : Dict.keys (scaled total d) = Dict.keys d.
Proof.
  unfold scaled, Dict.keys. induction d as [|[k v] d IH]; csimpl; [done|].
  by f_equal.
Qed.

Lemma range_nonpos c : (c ≤ 0)%Z → range c = [].
Proof. intros H. unfold range. by replace (Z.to_nat c) with 0 by lia. Qed.

End StatsMore.

(** X1. The initial dictionary has exactly the keys [0 .. c-1], inserted
    in ascending order, each with value [0.0]; a lookup outside that
    range finds nothing, and a threshold of zero or below gives the empty
    dictionary. *)
Theorem init_valid_views_dict_contents (concerned_n_view : Z) :
  Dict.keys (__init_valid_views_dict__ concerned_n_view) = range concerned_n_view
  ∧ length (__init_valid_views_dict__ concerned_n_view) = Z.to_nat concerned_n_view
  ∧ (∀ k, Dict.get (__init_valid_views_dict__ concerned_n_view) k
          = if bool_decide (0 ≤ k < concerned_n_view)%Z
            then Some Float.zero else None)
  ∧ ((concerned_n_view ≤ 0)%Z → __init_valid_views_dict__ concerned_n_view = []).
Proof.
  rewrite init_valid_views_dict_spec.
  split; [apply keys_tabulate|]. split; [|split].
  - unfold tabulate, range. by rewrite !length_fmap, length_seq.
  - intros k. rewrite get_tabulate.
    apply (f_equal (fun b : bool => if b then Some Float.zero else None)).
    apply bool_decide_ext, elem_of_range.
  - intros Hc. by rewrite range_nonpos.
Qed.

(** X2. With NaN-marked points allowed: the values of the raw histogram
    are the floats of counts, and these counts plus the number of
    non-excluded points whose valid views reach the threshold equal the
    [total_pairs] the rate is computed from; in particular no count
    exceeds [total_pairs]. *)
Theorem buckets_account_for_total_pairs
    (points_mask : ndarray) (n_view n_point w : nat) (concerned_n_view : Z) :
  shape points_mask = [n_view; n_point; w] → 0 < w →
  ∃ valid_stats_dict total_pairs counts,
    count_valid_views points_mask concerned_n_view
      = Ok (valid_stats_dict, total_pairs)
    ∧ Dict.values valid_stats_dict = Float.count <$> counts
    ∧ Z.of_nat (sum_list counts + uncounted concerned_n_view (pairs points_mask))
      = total_pairs
    ∧ Forall (fun n => (Z.of_nat n ≤ total_pairs)%Z) counts.
Proof.
  intros Hs Hw.
  pose proof (slices_partition concerned_n_view (pairs points_mask)) as Hpart.
  rewrite (length_pairs _ _ _ _ Hs) in Hpart.
  exists (histogram concerned_n_view (pairs points_mask)),
         (Z.of_nat n_point - Z.of_nat (excluded (pairs points_mask)))%Z,
         ((fun k => hits k (pairs points_mask)) <$> range concerned_n_view).
  split; [by apply (count_valid_views_spec _ _ _ _ _ Hs)|]. split; [|split].
  - unfold histogram. rewrite values_tabulate. by rewrite <- list_fmap_compose.
  - lia.
  - apply Forall_fmap, Forall_forall. intros k _. simpl.
    pose proof (hits_excluded_le k (pairs points_mask)) as Hle.
    rewrite (length_pairs _ _ _ _ Hs) in Hle. lia.
Qed.

Lemma buckets_account_for_total_pairs_witness :
  ∃ valid_stats_dict total_pairs counts,
    count_valid_views scenario_mask 3 = Ok (valid_stats_dict, total_pairs)
    ∧ Dict.values valid_stats_dict = Float.count <$> counts
    ∧ Z.of_nat (sum_list counts + uncounted 3 (pairs scenario_mask)) = total_pairs
    ∧ Forall (fun n => (Z.of_nat n ≤ total_pairs)%Z) counts.
Proof.
  apply (buckets_account_for_total_pairs scenario_mask 3 4 1 3); [reflexivity | lia].
Defined.

(** X3. The report has one row per key [0 .. c-1], in ascending order,
    in both modes, and the call never raises on a mask of rank 3 whose
    last axis is not empty; with a threshold of zero or below both the
    dictionary and the report are empty. *)
Theorem report_rows_follow_keys
    (points_mask : ndarray) (n_view n_point w : nat)
    (concerned_n_view : Z) (return_rate : bool) :
  shape points_mask = [n_view; n_point; w] → 0 < w →
  ∃ valid_stats_dict table,
    get_valid_views_stats points_mask concerned_n_view return_rate
      = Ok (valid_stats_dict, table)
    ∧ Dict.keys valid_stats_dict = range concerned_n_view
    ∧ table.*1 = range concerned_n_view
    ∧ table = Dict.items valid_stats_dict
    ∧ ((concerned_n_view ≤ 0)%Z → valid_stats_dict = [] ∧ table = []).
Proof.
  intros Hs Hw. rewrite (get_valid_views_stats_slices _ _ _ _ _ _ Hs Hw).
  unfold stats_of_slices. cbv zeta.
  destruct (return_rate && _); eexists _, _; (split; [done|]).
  - assert (Hk : ∀ t, Dict.keys (scaled t (histogram concerned_n_view (pairs points_mask)))
                      = range concerned_n_view).
    { intros t. rewrite keys_scaled. apply keys_tabulate. }
    split; [apply Hk|]. split; [apply Hk|]. split; [done|].
    intros Hc. unfold histogram. by rewrite range_nonpos.
  - unfold histogram. split; [apply keys_tabulate|].
    split; [apply keys_tabulate|]. split; [done|].
    intros Hc. by rewrite range_nonpos.
Qed.

Lemma report_rows_follow_keys_witness :
  ∃ valid_stats_dict table,
    get_valid_views_stats five_point_mask 3 true = Ok (valid_stats_dict, table)
    ∧ Dict.keys valid_stats_dict = range 3
    ∧ table.*1 = range 3
    ∧ table = Dict.items valid_stats_dict
    ∧ ((3 ≤ 0)%Z → valid_stats_dict = [] ∧ table = []).
Proof.
  apply (report_rows_follow_keys five_point_mask 3 5 1 3 true); [reflexivity | lia].
Defined.

Lemma stats_step_raise m st j e :
  getitem_pair m j = Raise e → stats_step m st j = Raise e.
Proof. intros H. destruct st. unfold stats_step. by rewrite H. Qed.

(** X4. Edge shapes: a mask of rank below 2 fails at [shape[1]]; a mask
    of rank 2, or of rank 3 with an empty last axis, fails at the
    subscript of the first point; but when there is no point at all the
    loop is not entered and the all-zero dictionary is returned, in both
    modes, whatever the rank was (2 or 3). *)
Theorem stats_edge_shapes
    (points_mask : ndarray) (concerned_n_view : Z) (return_rate : bool) :
  let r := get_valid_views_stats points_mask concerned_n_view return_rate in
  let empty := __init_valid_views_dict__ concerned_n_view in
  (length (shape points_mask) < 2 → r = Raise IndexError)
  ∧ (∀ n_view n_point,
       shape points_mask = [n_view; S n_point] → r = Raise IndexError)
  ∧ (∀ n_view n_point,
       shape points_mask = [n_view; S n_point; 0] → r = Raise IndexError)
  ∧ (∀ n_view, shape points_mask = [n_view; 0] → r = Ok (empty, empty))
  ∧ (∀ n_view w, shape points_mask = [n_view; 0; w] → r = Ok (empty, empty)).
Proof.
  intros r empty. subst r empty.
  unfold get_valid_views_stats, count_valid_views.
  split; [|split; [|split; [|split]]].
  - intros Hlen. destruct (shape points_mask) as [|a [|b s]]; [done | done |].
    simpl in Hlen. lia.
  - intros n_view n_point Hs. rewrite Hs. cbn [Np.shape_second].
    change (Ok ?x ≫= ?f) with (f x). cbv beta.
    cbn [seq for_each]. rewrite (stats_step_raise _ _ _ IndexError); [done|].
    unfold getitem_pair. by rewrite Hs.
  - intros n_view n_point Hs. rewrite Hs. cbn [Np.shape_second].
    change (Ok ?x ≫= ?f) with (f x). cbv beta.
    cbn [seq for_each]. rewrite (stats_step_raise _ _ _ IndexError); [done|].
    unfold getitem_pair. rewrite Hs. by rewrite andb_false_r.
  - intros n_view Hs. rewrite Hs. simpl. by destruct return_rate.
  - intros n_view w Hs. rewrite Hs. simpl. by destruct return_rate.
Qed.

Lemma stats_edge_shapes_witness :
  get_valid_views_stats (full [3; 0; 1] f1) 3 true
  = Ok (__init_valid_views_dict__ 3, __init_valid_views_dict__ 3).
Proof.
  apply (proj2 (proj2 (proj2 (proj2
           (stats_edge_shapes (full [3; 0; 1] f1) 3 true)))) 3 1).
  reflexivity.
Defined.

Section SliceFacts.

Implicit Types (m : ndarray) (col : list Float.t).

(** [omap] over an index range, when the two selectors agree on it. *)
Lemma omap_seq_ext {B} (g h : nat → option B) (n : nat) :
  (∀ i, i < n → g i = h i) → omap g (seq 0 n) = omap h (seq 0 n).
Proof.
  intros H. apply list_omap_ext, Forall_Forall2_diag, Forall_forall.
  intros i Hi. apply elem_of_seq in Hi. apply H. lia.
Qed.

(** [omap] over an index range of a selector that never misses. *)
Lemma omap_seq_total {B} (g : nat → option B) (h : nat → B) (n : nat) :
  (∀ i, i < n → g i = Some (h i)) → omap g (seq 0 n) = h <$> seq 0 n.
Proof.
  intros H. induction n as [|n IH]; [done|].
  rewrite seq_S, omap_app, fmap_app, IH by (intros; apply H; lia).
  csimpl. by rewrite (H n) by lia.
Qed.

Lemma flat_index_lt (q n w : nat) : q < n → 0 < w → q * w < n * w.
Proof. intros. apply Nat.mul_lt_mono_pos_r; lia. Qed.

Lemma pair_index_lt (v i n_view n_point : nat) :
  v < n_view → i < n_point → v * n_point + i < n_view * n_point.
Proof. nia. Qed.

(** Two masks of the same rank-3 shape class with the same slices give
    the same statistics. *)
Lemma stats_same_slices m m' n_view n_view' n_point w w' c return_rate :
  shape m = [n_view; n_point; w] → 0 < w →
  shape m' = [n_view'; n_point; w'] → 0 < w' →
  stats_of_slices c return_rate n_point (pairs m)
  = stats_of_slices c return_rate n_point (pairs m') →
  get_valid_views_stats m c return_rate = get_valid_views_stats m' c return_rate.
Proof.
  intros Hs Hw Hs' Hw' Heq.
  by rewrite (get_valid_views_stats_slices _ _ _ _ _ _ Hs Hw),
             (get_valid_views_stats_slices _ _ _ _ _ _ Hs' Hw').
Qed.

End SliceFacts.

(** X5. Only component 0 of the last axis is read: on a well-formed mask
    of shape [n_view, n_point, w] with [w >= 1], the statistics are those
    of the slice [points_mask[..., 0:1]]. *)
Theorem stats_read_first_component
    (points_mask m0 : ndarray) (n_view n_point w : nat)
    (concerned_n_view : Z) (return_rate : bool) :
  shape points_mask = [n_view; n_point; w] → 0 < w → wf points_mask →
  Np.getitem_ellipsis_0_1 points_mask = Ok m0 →
  shape m0 = [n_view; n_point; 1]
  ∧ get_valid_views_stats points_mask concerned_n_view return_rate
    = get_valid_views_stats m0 concerned_n_view return_rate.
Proof.
  intros Hs Hw Hwf Hm0. unfold Np.getitem_ellipsis_0_1 in Hm0.
  rewrite Hs in Hm0. cbn [last removelast app] in Hm0.
  assert (Nat.min 1 w = 1) as Hmin by lia.
  rewrite Hmin in Hm0. injection Hm0 as <-.
  split; [done|].
  apply (stats_same_slices _ _ n_view n_view n_point w 1); [done..|lia|].
  f_equal. rewrite (pairs_rank3 _ _ _ _ Hs).
  unfold pairs. cbn [shape]. apply list_fmap_ext. intros i j Hj.
  apply lookup_seq in Hj as [-> Hj]. simpl. unfold slice_at. cbn [data].
  apply omap_seq_ext. intros v Hv.
  rewrite (omap_seq_total _ (fun i => default Float.zero (data points_mask !! (i * w)))).
  - rewrite list_lookup_fmap, lookup_seq_lt
      by (pose proof (pair_index_lt _ _ _ _ Hv Hj); lia). simpl.
    rewrite Nat.mul_1_r.
    destruct (data points_mask !! ((v * n_point + i) * w)) eqn:Hl; [done|].
    apply lookup_ge_None in Hl. unfold wf in Hwf. rewrite Hs in Hwf.
    unfold size in Hwf. simpl in Hwf.
    pose proof (flat_index_lt _ _ w (pair_index_lt _ _ _ _ Hv Hj) Hw). lia.
  - intros i' Hi.
    destruct (data points_mask !! (i' * w)) eqn:Hl; [done|].
    apply lookup_ge_None in Hl. unfold wf in Hwf. rewrite Hs in Hwf.
    unfold size in Hwf. simpl in Hwf.
    assert (Hi' : i' < n_view * n_point) by lia.
    pose proof (flat_index_lt _ _ w Hi' Hw). lia.
Qed.

Lemma stats_read_first_component_witness :
  let m := {| dtype := float64; shape := [2; 2; 2];
              data := [f1; f0; fnan; f0; f0; fnan; f1; f1] |} in
  let m0 := {| dtype := float64; shape := [2; 2; 1];
               data := [f1; fnan; f0; f1] |} in
  shape m0 = [2; 2; 1]
  ∧ get_valid_views_stats m 3 true = get_valid_views_stats m0 3 true.
Proof.
  exact (stats_read_first_component
           (mk_ndarray float64 [2; 2; 2] [f1; f0; fnan; f0; f0; fnan; f1; f1])
           (mk_ndarray float64 [2; 2; 1] [f1; fnan; f0; f1])
           2 2 2 3 true eq_refl (Nat.lt_0_succ 1) eq_refl eq_refl).
Defined.

Section ClassifyFacts.

Implicit Types (x y : Float.t) (col : list Float.t).

(** A float that [np.isnan] accepts is NaN in the specification of the
    primitive floats. *)
Lemma isnan_spec x : Float.isnan x = true → Prim2SF x = S754_nan.
Proof.
  unfold Float.isnan, PrimFloat.is_nan. rewrite FloatAxioms.eqb_spec.
  unfold SFeqb. destruct (Prim2SF x) as [s|s| |s mx e]; simpl; try done.
  - by destruct s.
  - destruct s; rewrite Z.compare_refl, Pos.compare_cont_refl; done.
Qed.

(** NaN compares equal to nothing. *)
Lemma isnan_eqb_false x y : Float.isnan x = true → Float.eqb x y = false.
Proof.
  intros H. unfold Float.eqb. rewrite FloatAxioms.eqb_spec, (isnan_spec _ H).
  done.
Qed.

Lemma isnan_classify x : Float.isnan (classify x) = Float.isnan x.
Proof.
  unfold classify. destruct (Float.isnan x) eqn:Hn; [done|].
  by destruct (Float.eqb x Float.one).
Qed.

Lemma eqb_one_classify x :
  Float.eqb (classify x) Float.one = Float.eqb x Float.one.
Proof.
  unfold classify. destruct (Float.isnan x) eqn:Hn.
  - by rewrite (isnan_eqb_false _ _ Hn).
  - by destruct (Float.eqb x Float.one) eqn:He.
Qed.

Lemma has_nan_classify col : has_nan (classify <$> col) = has_nan col.
Proof.
  unfold has_nan. induction col as [|x col IH]; [done|]. csimpl.
  by rewrite isnan_classify, IH.
Qed.

Lemma ones_classify col : ones (classify <$> col) = ones col.
Proof.
  unfold ones. induction col as [|x col IH]; [done|]. csimpl.
  rewrite eqb_one_classify. destruct (Float.eqb x Float.one); simpl; by rewrite IH.
Qed.

(** The counts depend on the slices through [has_nan] and [ones] only. *)
Lemma stats_of_slices_ext c return_rate n_point cols cols' :
  Forall2 (fun col col' => has_nan col = has_nan col' ∧ ones col = ones col')
          cols cols' →
  stats_of_slices c return_rate n_point cols
  = stats_of_slices c return_rate n_point cols'.
Proof.
  intros H.
  assert (He : excluded cols = excluded cols').
  { unfold excluded. induction H as [|col col' cols cols' [Hn _] _ IH]; [done|].
    simpl. rewrite Hn. destruct (has_nan col'); simpl; by rewrite IH. }
  assert (Hh : ∀ k, hits k cols = hits k cols').
  { intros k. clear He. unfold hits.
    induction H as [|col col' cols cols' [Hn Ho] _ IH]; [done|].
    simpl. rewrite Hn, Ho.
    destruct (negb (has_nan col') && (Z.of_nat (ones col') =? k)%Z); simpl;
      by rewrite IH. }
  unfold stats_of_slices, histogram. rewrite He.
  by rewrite (tabulate_ext _ (fun k => Float.count (hits k cols')))
    by (intros; by rewrite Hh).
Qed.

End ClassifyFacts.

(** X6. A mask entry is read in one of three ways only: NaN, exactly
    [1.0], or anything else. Replacing every entry that is neither NaN nor
    [1.0] by [0.0] changes nothing of the result, in either mode. *)
Theorem stats_three_valued
    (dt : DType) (s : list nat) (dat : list Float.t) (n_view n_point w : nat)
    (concerned_n_view : Z) (return_rate : bool) :
  s = [n_view; n_point; w] → 0 < w →
  get_valid_views_stats {| dtype := dt; shape := s; data := classify <$> dat |}
                        concerned_n_view return_rate
  = get_valid_views_stats {| dtype := dt; shape := s; data := dat |}
                          concerned_n_view return_rate.
Proof.
  intros -> Hw.
  apply (stats_same_slices _ _ n_view n_view n_point w w); [done..|].
  apply stats_of_slices_ext. unfold pairs. cbn [shape data].
  apply Forall2_fmap, Forall_Forall2_diag, Forall_forall. intros j _.
  assert (Hcol : omap (fun v => (classify <$> dat) !! ((v * n_point + j) * w))
                      (seq 0 n_view)
                 = classify <$> omap (fun v => dat !! ((v * n_point + j) * w))
                                     (seq 0 n_view)).
  { rewrite list_fmap_omap. apply omap_seq_ext. intros v _.
    by rewrite list_lookup_fmap. }
  rewrite Hcol. split; [apply has_nan_classify | apply ones_classify].
Qed.

Lemma stats_three_valued_witness :
  get_valid_views_stats
    {| dtype := float64; shape := [2; 2; 1];
       data := classify <$> [f1; Float.add f1 f1; fnan; f0] |} 3 true
  = get_valid_views_stats
      {| dtype := float64; shape := [2; 2; 1];
         data := [f1; Float.add f1 f1; fnan; f0] |} 3 true.
Proof.
  apply (stats_three_valued float64 [2; 2; 1] [f1; Float.add f1 f1; fnan; f0] 2 2 1 3 true);
    [reflexivity | lia].
Defined.

Section OrderFacts.

Implicit Types (col : list Float.t) (cols : list (list Float.t)).

Lemma filter_length_Permutation {A} (f : A → bool) (l l' : list A) :
  l ≡ₚ l' → length (List.filter f l) = length (List.filter f l').
Proof.
  induction 1 as [|x l l' _ IH|x y l|l l' l'' _ IH1 _ IH2]; simpl.
  - done.
  - destruct (f x); simpl; by rewrite IH.
  - by destruct (f x), (f y).
  - by rewrite IH1.
Qed.

Lemma has_nan_Permutation col col' : col ≡ₚ col' → has_nan col = has_nan col'.
Proof.
  unfold has_nan.
  induction 1 as [|x l l' _ IH|x y l|l l' l'' _ IH1 _ IH2]; simpl.
  - done.
  - by rewrite IH.
  - by destruct (Float.isnan x), (Float.isnan y).
  - by rewrite IH1.
Qed.

Lemma stats_of_slices_Permutation c return_rate n_point cols cols' :
  cols ≡ₚ cols' →
  stats_of_slices c return_rate n_point cols
  = stats_of_slices c return_rate n_point cols'.
Proof.
  intros H. unfold stats_of_slices, histogram, excluded.
  rewrite (filter_length_Permutation _ _ _ H).
  by rewrite (tabulate_ext _ (fun k => Float.count (hits k cols')))
    by (intros; unfold hits; by rewrite (filter_length_Permutation _ _ _ H)).
Qed.

End OrderFacts.

(** X7. The statistics depend neither on the order of the points nor on
    the order of the views: two masks with the same number of points whose
    per-point slices agree up to a reordering of the points and, within
    each point, of the views, give the same result. *)
Theorem stats_order_independent
    (m m' : ndarray) (n_view n_view' n_point w w' : nat)
    (cols : list (list Float.t)) (concerned_n_view : Z) (return_rate : bool) :
  shape m = [n_view; n_point; w] → 0 < w →
  shape m' = [n_view'; n_point; w'] → 0 < w' →
  pairs m ≡ₚ cols → Forall2 (≡ₚ) cols (pairs m') →
  get_valid_views_stats m concerned_n_view return_rate
  = get_valid_views_stats m' concerned_n_view return_rate.
Proof.
  intros Hs Hw Hs' Hw' Hperm Hviews.
  apply (stats_same_slices _ _ _ _ _ _ _ _ _ Hs Hw Hs' Hw').
  rewrite (stats_of_slices_Permutation _ _ _ _ _ Hperm).
  apply stats_of_slices_ext.
  eapply Forall2_impl; [exact Hviews|]. intros col col' Hc. split.
  - by apply has_nan_Permutation.
  - unfold ones. by apply filter_length_Permutation.
Qed.

Lemma stats_order_independent_witness :
  get_valid_views_stats (mk_ndarray float64 [2; 2; 1] [f1; f0; fnan; f1]) 3 true
  = get_valid_views_stats (mk_ndarray float64 [2; 2; 1] [f1; fnan; f0; f1]) 3 true.
Proof.
  apply (stats_order_independent
           (mk_ndarray float64 [2; 2; 1] [f1; f0; fnan; f1])
           (mk_ndarray float64 [2; 2; 1] [f1; fnan; f0; f1])
           2 2 2 1 1 [[f0; f1]; [f1; fnan]] 3 true);
    [reflexivity | lia | reflexivity | lia | apply perm_swap |].
  repeat constructor; apply perm_swap.
Defined.

(** * Further properties of [prepare_triangulate_input] *)

Section PrepareMore.

Implicit Types (p m : ndarray) (cam : Z) (s : list nat).

Lemma shape_snoc s : s ≠ [] → s = removelast s ++ [default 0 (last s)].
Proof.
  induction s as [|a s IH]; [done|]. intros _.
  destruct s as [|b s]; [done|].
  change (removelast (a :: b :: s)) with (a :: removelast (b :: s)).
  change (last (a :: b :: s)) with (last (b :: s)).
  simpl. f_equal. by apply IH.
Qed.

(** Everything a successful call with an array mask has checked. *)
Lemma prepare_arrays_inv cam points points_mask p m r :
  as_array points = Some p → as_array points_mask = Some m →
  prepare_triangulate_input cam points points_mask = Ok r →
  r = (p, m)
  ∧ ∃ n rest rest', shape p = n :: rest ∧ shape m = n :: rest'
      ∧ Z.of_nat n = cam ∧ 2 ≤ width p
      ∧ shape m = removelast (shape p) ++ [1].
Proof.
  intros Hp Hm Hr.
  destruct (prepare_arrays_ok _ _ _ _ _ _ Hp Hm Hr) as (-> & Hw & Hwm & Hl).
  split; [done|].
  destruct (shape p) as [|n_p rest_p] eqn:Hsp.
  { pose proof (prepare_rank0 cam _ points_mask _ Hp Hsp) as H. by rewrite Hr in H. }
  destruct (shape m) as [|n_m rest_m] eqn:Hsm.
  { pose proof (prepare_mask_rank0 cam _ _ _ _ Hp Hm Hsm) as H. by rewrite Hr in H. }
  rewrite (prepare_arrays cam _ _ _ _ _ _ _ _ Hp Hm Hsp Hsm) in Hr.
  destruct (Nat.eqb_spec n_p n_m) as [Hnm|]; [|done].
  destruct (Z.eqb_spec (Z.of_nat n_p) cam) as [Hc|]; [|done].
  exists n_p, rest_p, rest_m. split; [done|]. split; [by rewrite Hnm|].
  split; [done|]. split; [done|].
  rewrite Hl. rewrite (shape_snoc (n_m :: rest_m)) at 1 by done.
  unfold width in Hwm. rewrite Hsm in Hwm. by rewrite Hwm.
Qed.

End PrepareMore.

(** X8. Type errors come before every shape check: points that are
    neither array, list nor tuple give TypeError whatever the mask and the
    camera number are; and so does a mask that is neither [None], array,
    list nor tuple, whatever the shape of the points, even of rank 0. *)
Theorem prepare_type_errors_first
    (camera_number : Z) (points points_mask : pyobj)
    (shape_attr : option (list nat)) :
  (as_array points = None →
     prepare_triangulate_input camera_number points points_mask = Raise TypeError)
  ∧ (is_Some (as_array points) →
     prepare_triangulate_input camera_number points (PyOther shape_attr)
     = Raise TypeError).
Proof.
  split.
  - apply prepare_not_array.
  - intros [p Hp]. by destruct points.
Qed.

Lemma prepare_type_errors_first_witness :
  prepare_triangulate_input 3 (PyArray (full [] f0)) (PyOther (Some [3; 4; 1]))
  = Raise TypeError.
Proof.
  apply (proj2 (prepare_type_errors_first 3 (PyArray (full [] f0)) PyNone
                  (Some [3; 4; 1]))).
  by eexists.
Defined.

(** X9. What a successful call guarantees about the returned pair,
    whether the mask was given or omitted: the points have rank at least
    2, their leading length is [camera_number] (which is therefore not
    negative), their last axis has width at least 2, and the mask has
    shape [points.shape[:-1] + [1]]. *)
Theorem prepare_success_invariants
    (camera_number : Z) (points points_mask : pyobj) (p m : ndarray) :
  prepare_triangulate_input camera_number points points_mask = Ok (p, m) →
  2 ≤ length (shape p)
  ∧ Np.shape_first (shape p) = Ok (Z.to_nat camera_number)
  ∧ (0 ≤ camera_number)%Z
  ∧ 2 ≤ width p
  ∧ shape m = removelast (shape p) ++ [1].
Proof.
  intros Hr.
  assert (∃ points_mask', as_array points_mask' = Some m
            ∧ prepare_triangulate_input camera_number points points_mask' = Ok (p, m))
    as (pm' & Hm & Hr').
  { destruct (as_array points) as [p0|] eqn:Hp.
    2:{ by rewrite (prepare_not_array _ _ _ Hp) in Hr. }
    destruct points_mask as [|m0|m0|m0|sa].
    - destruct (shape p0) as [|n rest] eqn:Hsp.
      { pose proof (prepare_rank0 camera_number _ PyNone _ Hp Hsp) as H.
        by rewrite Hr in H. }
      rewrite (prepare_none _ _ _ _ _ Hp Hsp) in Hr.
      destruct (prepare_arrays_ok _ _ (PyArray (default_mask p0)) _ _ _ Hp eq_refl Hr)
        as (Heq & _).
      assert (p = p0 ∧ m = default_mask p0) as [-> ->] by (by injection Heq).
      by exists (PyArray (default_mask p0)).
    - destruct (prepare_arrays_ok _ _ (PyArray m0) _ _ _ Hp eq_refl Hr) as (Heq & _).
      assert (p = p0 ∧ m = m0) as [-> ->] by (by injection Heq).
      by exists (PyArray m0).
    - destruct (prepare_arrays_ok _ _ (PyList m0) _ _ _ Hp eq_refl Hr) as (Heq & _).
      assert (p = p0 ∧ m = m0) as [-> ->] by (by injection Heq).
      by exists (PyList m0).
    - destruct (prepare_arrays_ok _ _ (PyTuple m0) _ _ _ Hp eq_refl Hr) as (Heq & _).
      assert (p = p0 ∧ m = m0) as [-> ->] by (by injection Heq).
      by exists (PyTuple m0).
    - pose proof (prepare_mask_other camera_number points sa) as H.
      by rewrite Hr in H. }
  destruct (as_array points) as [p0|] eqn:Hp.
  2:{ by rewrite (prepare_not_array _ _ _ Hp) in Hr. }
  destruct (prepare_arrays_inv _ _ _ _ _ _ Hp Hm Hr')
    as (Heq & n & rest & rest' & Hsp & Hsm & Hc & Hw & Hshape).
  simplify_eq.
  assert (rest ≠ []) as Hrest.
  { intros ->. rewrite Hsp in Hshape. simpl in Hshape. rewrite Hsm in Hshape.
    simplify_eq. unfold width in Hw. rewrite Hsp in Hw. simpl in Hw. lia. }
  split; [|split; [|split; [|split]]]; try done.
  - rewrite Hsp. destruct rest; [done|]. simpl. lia.
  - rewrite Hsp. simpl. by rewrite Nat2Z.id.
  - lia.
Qed.

Lemma prepare_success_invariants_witness :
  2 ≤ length (shape (full [2; 3; 2] f0))
  ∧ Np.shape_first (shape (full [2; 3; 2] f0)) = Ok (Z.to_nat 2)
  ∧ (0 ≤ 2)%Z
  ∧ 2 ≤ width (full [2; 3; 2] f0)
  ∧ shape (full [2; 3; 1] f1) = removelast (shape (full [2; 3; 2] f0)) ++ [1].
Proof.
  exact (prepare_success_invariants 2 (PyTuple (full [2; 3; 2] f0)) PyNone
           (full [2; 3; 2] f0) (full [2; 3; 1] f1) eq_refl).
Defined.

(** X10. Normalizing twice changes nothing: the pair returned by a
    successful call passes the same call again and comes back as it is. *)
Theorem prepare_idempotent
    (camera_number : Z) (points points_mask : pyobj) (p m : ndarray) :
  prepare_triangulate_input camera_number points points_mask = Ok (p, m) →
  prepare_triangulate_input camera_number (PyArray p) (PyArray m) = Ok (p, m).
Proof.
  intros Hr.
  destruct (as_array points) as [p0|] eqn:Hp.
  2:{ by rewrite (prepare_not_array _ _ _ Hp) in Hr. }
  assert (∃ points_mask', as_array points_mask' = Some m
            ∧ prepare_triangulate_input camera_number points points_mask' = Ok (p, m))
    as (pm' & Hm & Hr').
  { destruct points_mask as [|m0|m0|m0|sa].
    - destruct (shape p0) as [|n rest] eqn:Hsp.
      { pose proof (prepare_rank0 camera_number _ PyNone _ Hp Hsp) as H.
        by rewrite Hr in H. }
      rewrite (prepare_none _ _ _ _ _ Hp Hsp) in Hr.
      destruct (prepare_arrays_ok _ _ (PyArray (default_mask p0)) _ _ _ Hp eq_refl Hr)
        as (Heq & _).
      assert (p = p0 ∧ m = default_mask p0) as [-> ->] by (by injection Heq).
      by exists (PyArray (default_mask p0)).
    - destruct (prepare_arrays_ok _ _ (PyArray m0) _ _ _ Hp eq_refl Hr) as (Heq & _).
      assert (p = p0 ∧ m = m0) as [-> ->] by (by injection Heq).
      by exists (PyArray m0).
    - destruct (prepare_arrays_ok _ _ (PyList m0) _ _ _ Hp eq_refl Hr) as (Heq & _).
      assert (p = p0 ∧ m = m0) as [-> ->] by (by injection Heq).
      by exists (PyList m0).
    - destruct (prepare_arrays_ok _ _ (PyTuple m0) _ _ _ Hp eq_refl Hr) as (Heq & _).
      assert (p = p0 ∧ m = m0) as [-> ->] by (by injection Heq).
      by exists (PyTuple m0).
    - pose proof (prepare_mask_other camera_number points sa) as H.
      by rewrite Hr in H. }
  destruct (prepare_arrays_inv _ _ _ _ _ _ Hp Hm Hr')
    as (Heq & n & rest & rest' & Hsp & Hsm & Hc & Hw & Hshape).
  assert (p = p0) as -> by (by injection Heq).
  destruct (prepare_arrays_ok _ _ _ _ _ _ Hp Hm Hr') as (_ & _ & Hwm & Hl).
  rewrite (prepare_arrays camera_number (PyArray p0) (PyArray m) p0 m
             n rest n rest' eq_refl eq_refl Hsp Hsm).
  rewrite Nat.eqb_refl. destruct (Z.eqb_spec (Z.of_nat n) camera_number); [|done].
  simpl. destruct (Nat.ltb_spec (width p0) 2); [lia|].
  rewrite bool_decide_eq_true_2 by done. by rewrite Hwm.
Qed.

Lemma prepare_idempotent_witness :
  prepare_triangulate_input 2 (PyArray (full [2; 3; 2] f0)) (PyArray (full [2; 3; 1] f1))
  = Ok (full [2; 3; 2] f0, full [2; 3; 1] f1).
Proof.
  exact (prepare_idempotent 2 (PyList (full [2; 3; 2] f0)) PyNone
           (full [2; 3; 2] f0) (full [2; 3; 1] f1) eq_refl).
Defined.

Section PrepareOmitted.

Implicit Types (p : ndarray) (cam : Z).

Lemma prepare_coerce cam points points_mask p :
  as_array points = Some p →
  prepare_triangulate_input cam points points_mask
  = prepare_triangulate_input cam (PyArray p) points_mask.
Proof. intros Hp. destruct points; simpl in Hp; by simplify_eq. Qed.

(** With the mask omitted, a vector never passes. *)
Lemma prepare_none_rank1 cam p n :
  shape p = [n] → is_ok (prepare_triangulate_input cam (PyArray p) PyNone) = false.
Proof.
  intros Hs. rewrite (prepare_none _ (PyArray p) p n [] eq_refl Hs).
  assert (Hd : shape (default_mask p) = [Nat.min 1 n]).
  { rewrite shape_default_mask. unfold width. by rewrite Hs. }
  rewrite (prepare_arrays _ (PyArray p) (PyArray (default_mask p)) p (default_mask p)
             n [] (Nat.min 1 n) [] eq_refl eq_refl Hs Hd).
  destruct (negb _) eqn:Hv; [done|]. unfold width. rewrite Hs. simpl.
  destruct n as [|[|n]]; done.
Qed.

(** With the mask omitted and rank at least 2, only the camera number and
    the width of the last axis decide. *)
Lemma prepare_none_rank2 cam p lead K d n rest :
  shape p = lead ++ [K; d] → shape p = n :: rest →
  prepare_triangulate_input cam (PyArray p) PyNone
  = if negb (Z.of_nat n =? cam)%Z then Raise (ValueError ViewCountMismatch)
    else if d <? 2 then Raise (ValueError CoordWidthTooSmall)
    else Ok (p, astype (dtype p) (full (lead ++ [K; 1]) Float.one)).
Proof.
  intros Hs Hn. destruct (Z.eqb_spec (Z.of_nat n) cam) as [<-|Hne]; cbn [negb].
  - by apply (prepare_rank2 p lead K d n rest).
  - assert (Hrest : rest ≠ []).
    { intros ->. rewrite Hs in Hn. destruct lead as [|x [|y lead]]; done. }
    rewrite (prepare_none _ (PyArray p) p n rest eq_refl Hn).
    destruct (default_mask_first _ _ _ Hn) as (n' & rest' & Hd & Hn' & _).
    rewrite (prepare_arrays _ (PyArray p) (PyArray (default_mask p)) p (default_mask p)
               n rest n' rest' eq_refl eq_refl Hn Hd).
    destruct (Z.eqb_spec (Z.of_nat n) cam); [done|]. by rewrite andb_false_r.
Qed.

End PrepareOmitted.

(** X11. With [points_mask] omitted the call succeeds exactly when the
    points have rank at least 2, leading length [camera_number] and a last
    axis of width at least 2; it then returns the points with the
    all-ones mask of shape [points.shape[:-1] + [1]], which has the dtype
    of the points. *)
Theorem prepare_omitted_mask_success
    (camera_number : Z) (points : pyobj) (p : ndarray) :
  as_array points = Some p →
  (is_ok (prepare_triangulate_input camera_number points PyNone) = true
   ↔ 2 ≤ length (shape p)
     ∧ Np.shape_first (shape p) = Ok (Z.to_nat camera_number)
     ∧ (0 ≤ camera_number)%Z
     ∧ 2 ≤ width p)
  ∧ (is_ok (prepare_triangulate_input camera_number points PyNone) = true →
     prepare_triangulate_input camera_number points PyNone
     = Ok (p, astype (dtype p) (full (removelast (shape p) ++ [1]) Float.one))).
Proof.
  intros Hp. rewrite (prepare_coerce _ _ _ _ Hp).
  destruct (shape p) as [|n [|n' rest]] eqn:Hs.
  - rewrite (prepare_rank0 camera_number (PyArray p) PyNone p eq_refl Hs).
    split; [|done]. split; [done|]. simpl. lia.
  - rewrite (prepare_none_rank1 _ _ _ Hs).
    split; [|done]. split; [done|]. simpl. lia.
  - destruct (rank2_decompose n n' rest) as (lead & K & d & Heq).
    assert (Hs' : shape p = lead ++ [K; d]) by (by rewrite Hs).
    rewrite (prepare_none_rank2 _ _ _ _ _ _ _ Hs' Hs).
    assert (Hw : width p = d) by (unfold width; by rewrite Hs', last_two).
    rewrite <- Hs, Hs', removelast_two, <- two_snoc, Hw.
    cbn [Np.shape_first]. rewrite two_snoc, <- Heq, <- two_snoc.
    destruct (Z.eqb_spec (Z.of_nat n) camera_number) as [Hc|Hc]; cbn [negb].
    + destruct (Nat.ltb_spec d 2); simpl.
      * split; [|done]. split; [done|]. lia.
      * split; [|done]. split; [|done]. intros _.
        split; [lia|]. split; [|lia]. f_equal. lia.
    + split; [|done]. split; [done|]. intros (_ & Hf & Hc' & _).
      injection Hf as ->. lia.
Qed.

Lemma prepare_omitted_mask_success_witness :
  (is_ok (prepare_triangulate_input 2 (PyList (full [2; 3; 2] f0)) PyNone) = true
   ↔ 2 ≤ length (shape (full [2; 3; 2] f0))
     ∧ Np.shape_first (shape (full [2; 3; 2] f0)) = Ok (Z.to_nat 2)
     ∧ (0 ≤ 2)%Z
     ∧ 2 ≤ width (full [2; 3; 2] f0))
  ∧ (is_ok (prepare_triangulate_input 2 (PyList (full [2; 3; 2] f0)) PyNone) = true →
     prepare_triangulate_input 2 (PyList (full [2; 3; 2] f0)) PyNone
     = Ok (full [2; 3; 2] f0,
           astype (dtype (full [2; 3; 2] f0))
             (full (removelast (shape (full [2; 3; 2] f0)) ++ [1]) Float.one))).
Proof.
  exact (prepare_omitted_mask_success 2 (PyList (full [2; 3; 2] f0))
           (full [2; 3; 2] f0) eq_refl).
Defined.

(** X12. The validation reads shapes only: two calls whose points have
    the same shape and whose masks have the same shape (or are both
    omitted) end the same way, with the same error or with success and
    the same returned shapes, whatever the element values are. *)
Theorem prepare_reads_shapes_only
    (camera_number : Z) (p p' m m' : ndarray) :
  shape p = shape p' → shape m = shape m' →
  outcome_shapes (prepare_triangulate_input camera_number (PyArray p) (PyArray m))
  = outcome_shapes (prepare_triangulate_input camera_number (PyArray p') (PyArray m'))
  ∧ outcome_shapes (prepare_triangulate_input camera_number (PyArray p) PyNone)
    = outcome_shapes (prepare_triangulate_input camera_number (PyArray p') PyNone).
Proof.
  intros Hp Hm. split.
  - destruct (shape p) as [|n_p rest_p] eqn:Hsp.
    { unfold prepare_triangulate_input. simpl. by rewrite Hsp, <- Hp. }
    destruct (shape m) as [|n_m rest_m] eqn:Hsm.
    { unfold prepare_triangulate_input. simpl. by rewrite Hsp, <- Hp, Hsm, <- Hm. }
    rewrite (prepare_arrays _ (PyArray p) (PyArray m) p m _ _ _ _
               eq_refl eq_refl Hsp Hsm).
    rewrite (prepare_arrays _ (PyArray p') (PyArray m') p' m' n_p rest_p n_m rest_m
               eq_refl eq_refl (eq_sym Hp) (eq_sym Hm)).
    unfold width. rewrite <- Hp, <- Hm, Hsp, Hsm.
    repeat (destruct (_ : bool); try done). simpl. by rewrite Hsp, Hsm, <- Hp, <- Hm.
  - destruct (shape p) as [|n_p rest_p] eqn:Hsp.
    { unfold prepare_triangulate_input, Np.getitem_ellipsis_0_1. simpl.
      by rewrite Hsp, <- Hp. }
    rewrite (prepare_none _ (PyArray p) p n_p rest_p eq_refl Hsp).
    rewrite (prepare_none _ (PyArray p') p' n_p rest_p eq_refl (eq_sym Hp)).
    destruct (default_mask_first _ _ _ Hsp) as (n' & rest' & Hd & _ & _).
    assert (Hd' : shape (default_mask p') = n' :: rest').
    { rewrite <- Hd. rewrite !shape_default_mask. unfold width.
      by rewrite Hsp, <- Hp. }
    rewrite (prepare_arrays _ (PyArray p) (PyArray (default_mask p)) p (default_mask p)
               _ _ _ _ eq_refl eq_refl Hsp Hd).
    rewrite (prepare_arrays _ (PyArray p') (PyArray (default_mask p')) p' (default_mask p')
               n_p rest_p n' rest' eq_refl eq_refl (eq_sym Hp) Hd').
    assert (Hsh : shape p = shape p') by (by rewrite Hsp).
    assert (Hw : width p = width p') by (unfold width; by rewrite Hsh).
    assert (Hdm : shape (default_mask p) = shape (default_mask p'))
      by (by rewrite Hd, Hd').
    assert (Hwd : width (default_mask p) = width (default_mask p'))
      by (change (default 0 (last (shape (default_mask p)))
                 = default 0 (last (shape (default_mask p')))); by rewrite Hdm).
    rewrite Hw, Hwd, Hdm, Hsh.
    destruct (negb ((n_p =? n') && (Z.of_nat n_p =? camera_number)%Z)); [done|].
    destruct (width p' <? 2); [done|].
    destruct (negb _ || negb _); [done|].
    cbn [outcome_shapes]. by rewrite Hdm, Hsh.
Qed.

Lemma prepare_reads_shapes_only_witness :
  outcome_shapes (prepare_triangulate_input 2 (PyArray (full [2; 3; 2] f0))
                    (PyArray (full [2; 3; 1] f1)))
  = outcome_shapes (prepare_triangulate_input 2 (PyArray (full [2; 3; 2] fnan))
                      (PyArray (full [2; 3; 1] f0)))
  ∧ outcome_shapes (prepare_triangulate_input 2 (PyArray (full [2; 3; 2] f0)) PyNone)
    = outcome_shapes (prepare_triangulate_input 2 (PyArray (full [2; 3; 2] fnan)) PyNone).
Proof.
  exact (prepare_reads_shapes_only 2 (full [2; 3; 2] f0) (full [2; 3; 2] fnan)
           (full [2; 3; 1] f1) (full [2; 3; 1] f0) eq_refl eq_refl).
Defined.

(** * Further properties of [parse_keypoints_mask] *)

(** X13. The keypoints are a shape and dtype reference only: two
    keypoints arrays of the same shape and dtype give the same outcome,
    error or mask, with every validity argument, whatever their elements
    are. The dtype cannot be left out: wherever float64 keypoints get a
    mask, int64 keypoints of the same shape raise NumPy's conversion
    error, the synthesized mask being int64 like them. *)
Theorem parse_uses_keypoints_shape_and_dtype
    (a b : ndarray) (keypoints_mask : pyobj) :
  shape a = shape b →
  (dtype a = dtype b →
     parse_keypoints_mask (PyArray a) keypoints_mask
     = parse_keypoints_mask (PyArray b) keypoints_mask)
  ∧ (dtype a = float64 → dtype b = int64 →
     is_ok (parse_keypoints_mask (PyArray a) keypoints_mask) = true →
     parse_keypoints_mask (PyArray b) keypoints_mask = Raise CastError).
Proof.
  intros Hab. split.
  - intros Hdt. destruct (shape a) as [|n [|n' rest]] eqn:Hs.
    + by rewrite (parse_rank0 a _ Hs), (parse_rank0 b _ (eq_sym Hab)).
    + by rewrite (parse_rank1 a n _ Hs), (parse_rank1 b n _ (eq_sym Hab)).
    + destruct (rank2_decompose n n' rest) as (lead & K & d & Heq).
      rewrite Heq in Hs, Hab.
      rewrite (parse_rank2 a lead K d _ Hs), (parse_rank2 b lead K d _ (eq_sym Hab)).
      by rewrite Hdt.
  - intros Ha Hb Hok. destruct (shape a) as [|n [|n' rest]] eqn:Hs.
    + by rewrite (parse_rank0 a _ Hs) in Hok.
    + rewrite (parse_rank1 a n _ Hs) in Hok. by destruct (2 <=? n).
    + destruct (rank2_decompose n n' rest) as (lead & K & d & Heq).
      rewrite Heq in Hs, Hab.
      rewrite (parse_rank2 a lead K d _ Hs) in Hok.
      rewrite (parse_rank2 b lead K d _ (eq_sym Hab)).
      destruct (d <? 2); [done|].
      destruct keypoints_mask as [|m|m|m|[[|M restm]|]]; try done.
      * destruct (shape m); [done|]. destruct (negb _); [done|].
        destruct (K =? 0); [done|]. by rewrite Hb.
      * by destruct (negb _).
Qed.

Lemma parse_uses_keypoints_shape_and_dtype_witness :
  (dtype (full [2; 3; 2] f0) = dtype (astype int64 (full [2; 3; 2] f1)) →
     parse_keypoints_mask (PyArray (full [2; 3; 2] f0)) (PyArray (vector [f1; f0; f1]))
     = parse_keypoints_mask (PyArray (astype int64 (full [2; 3; 2] f1)))
         (PyArray (vector [f1; f0; f1])))
  ∧ (dtype (full [2; 3; 2] f0) = float64 →
     dtype (astype int64 (full [2; 3; 2] f1)) = int64 →
     is_ok (parse_keypoints_mask (PyArray (full [2; 3; 2] f0))
              (PyArray (vector [f1; f0; f1]))) = true →
     parse_keypoints_mask (PyArray (astype int64 (full [2; 3; 2] f1)))
       (PyArray (vector [f1; f0; f1])) = Raise CastError).
Proof.
  exact (parse_uses_keypoints_shape_and_dtype (full [2; 3; 2] f0)
           (astype int64 (full [2; 3; 2] f1)) (PyArray (vector [f1; f0; f1])) eq_refl).
Defined.

(** X14. The order of the failures on keypoints of rank at least 2: a
    last axis narrower than 2 is reported first, whatever the validity
    argument is; then a validity argument without a [shape] attribute (a
    list, a tuple, [None]) gives the attribute error; then an empty
    [shape] gives IndexError; then differing lengths give
    KeypointCountMismatch; then, for a validity array, an empty keypoint
    axis gives the reshape error and int64 keypoints give the conversion
    error; and float64 keypoints with a well-formed validity array
    passing all of these get a mask. *)
Theorem parse_failure_order
    (a : ndarray) (lead : list nat) (K d : nat) (keypoints_mask : pyobj) :
  shape a = lead ++ [K; d] →
  let r := parse_keypoints_mask (PyArray a) keypoints_mask in
  (d < 2 → r = Raise (ValueError CoordWidthTooSmall))
  ∧ (2 ≤ d → attr_shape keypoints_mask = Raise AttributeError →
     r = Raise AttributeError)
  ∧ (2 ≤ d → attr_shape keypoints_mask = Ok [] → r = Raise IndexError)
  ∧ (∀ M rest, 2 ≤ d → attr_shape keypoints_mask = Ok (M :: rest) → K ≠ M →
       r = Raise (ValueError KeypointCountMismatch))
  ∧ (∀ m rest, 2 ≤ d → keypoints_mask = PyArray m → shape m = K :: rest →
       (K = 0 → r = Raise ReshapeError)
       ∧ (0 < K → dtype a = int64 → r = Raise CastError)
       ∧ (0 < K → dtype a = float64 → wf m → is_ok r = true)).
Proof.
  intros Hs r. subst r. rewrite (parse_rank2 _ _ _ _ _ Hs).
  split; [|split; [|split; [|split]]].
  - intros Hd. by destruct (Nat.ltb_spec d 2); [|lia].
  - intros Hd Hna. destruct (Nat.ltb_spec d 2); [lia|].
    by destruct keypoints_mask as [|m|m|m|[s|]].
  - intros Hd Hsh. destruct (Nat.ltb_spec d 2); [lia|].
    destruct keypoints_mask as [|m|m|m|[s|]]; try done; simpl in Hsh.
    + assert (shape m = []) as -> by congruence. done.
    + assert (s = []) as -> by congruence. done.
  - intros M rest Hd Hsh Hne. destruct (Nat.ltb_spec d 2); [lia|].
    destruct keypoints_mask as [|m|m|m|[s|]]; try done; simpl in Hsh.
    + assert (shape m = M :: rest) as -> by congruence.
      by destruct (Nat.eqb_spec K M).
    + assert (s = M :: rest) as -> by congruence.
      by destruct (Nat.eqb_spec K M).
  - intros m rest Hd -> Hm. destruct (Nat.ltb_spec d 2); [lia|]. rewrite Hm.
    rewrite Nat.eqb_refl. cbn [negb]. split; [|split].
    + by intros ->.
    + intros HK Hdt. destruct (Nat.eqb_spec K 0); [lia|]. by rewrite Hdt.
    + intros HK Hdt Hwf. destruct (Nat.eqb_spec K 0); [lia|]. rewrite Hdt.
      by rewrite (where_bound _ _ _ Hwf Hm).
Qed.

Lemma parse_failure_order_witness :
  parse_keypoints_mask (PyArray (full [2; 3; 2] f0)) (PyList (vector [f1; f0; f1]))
  = Raise AttributeError.
Proof.
  apply (proj1 (proj2 (parse_failure_order (full [2; 3; 2] f0) [2] 3 2
                         (PyList (vector [f1; f0; f1])) eq_refl)));
    [lia | reflexivity].
Defined.

Section ParseValues.

Implicit Types (m : ndarray) (v : list Float.t) (lead : list nat) (K : nat).

Lemma where_nil m :
  Forall (fun x => Float.eqb x Float.zero = false) (data m) →
  Np.where_eq0_first m = [].
Proof.
  intros H. destruct (Np.where_eq0_first m) as [|j l] eqn:Hw; [done|].
  assert (Hj : j ∈ Np.where_eq0_first m) by (rewrite Hw; by left).
  apply elem_of_where in Hj as (p & x & Hp & Hz & _).
  rewrite Forall_forall in H.
  rewrite (H x) in Hz; [done|]. by eapply list_elem_of_lookup_2.
Qed.

Lemma masked_data_nil lead K :
  masked_data lead K [] = replicate (size (lead ++ [K; 1])) Float.one.
Proof.
  unfold masked_data. apply list_eq. intros p. rewrite list_lookup_imap.
  by destruct (replicate _ _ !! p) as [x|].
Qed.

Lemma masked_data_all lead K v :
  0 < K → length v = K →
  Forall (fun x => Float.eqb x Float.zero = true) v →
  masked_data lead K (Np.where_eq0_first (vector v))
  = replicate (size (lead ++ [K; 1])) Float.nan.
Proof.
  intros HK Hv Hz. unfold masked_data. apply list_eq. intros p.
  rewrite list_lookup_imap.
  destruct (decide (p < size (lead ++ [K; 1]))) as [Hp|Hp].
  - rewrite !lookup_replicate_2 by done. simpl.
    rewrite bool_decide_eq_true_2; [done|].
    apply elem_of_where_vector.
    assert (Hlt : (p / 1) mod K < length v)
      by (rewrite Hv; apply Nat.mod_upper_bound; lia).
    destruct (lookup_lt_is_Some_2 v _ Hlt) as [x Hx]. exists x. split; [done|].
    rewrite Forall_forall in Hz. apply Hz. by eapply list_elem_of_lookup_2.
  - rewrite !(proj1 (lookup_replicate_None _ _ _)) by lia. done.
Qed.

End ParseValues.

(** X15. The two extremes, on float64 keypoints. A well-formed validity
    array without any zero entry gives the all-ones mask, which is the
    mask the delegated normalization synthesizes; a validity vector of
    zeros only gives the mask that is NaN everywhere. *)
Theorem parse_all_valid_and_all_invalid
    (a : ndarray) (lead : list nat) (K d : nat) :
  dtype a = float64 →
  shape a = lead ++ [K; d] → 2 ≤ d → 0 < K →
  (∀ m rest,
     shape m = K :: rest → wf m →
     Forall (fun x => Float.eqb x Float.zero = false) (data m) →
     parse_keypoints_mask (PyArray a) (PyArray m)
     = Ok (full (lead ++ [K; 1]) Float.one)
     ∧ ∀ n rest_a, shape a = n :: rest_a →
         prepare_triangulate_input (Z.of_nat n) (PyArray a) PyNone
         = Ok (a, full (lead ++ [K; 1]) Float.one))
  ∧ (∀ v,
       length v = K → Forall (fun x => Float.eqb x Float.zero = true) v →
       parse_keypoints_mask (PyArray a) (PyArray (vector v))
       = Ok (full (lead ++ [K; 1]) Float.nan)).
Proof.
  intros Hdt Hs Hd HK. split.
  - intros m rest Hm Hwf Hnz. split.
    + rewrite (parse_rank2 _ _ _ _ _ Hs).
      destruct (Nat.ltb_spec d 2); [lia|]. rewrite Hm, Nat.eqb_refl. cbn [negb].
      destruct (Nat.eqb_spec K 0); [lia|]. rewrite Hdt.
      rewrite (where_nil _ Hnz). cbn [forallb]. by rewrite masked_data_nil.
    + intros n rest_a Hn. rewrite (prepare_rank2 _ _ _ _ _ _ Hs Hn).
      destruct (Nat.ltb_spec d 2); [lia|]. by rewrite Hdt.
  - intros v Hv Hz. rewrite (parse_rank2 _ _ _ _ _ Hs).
    destruct (Nat.ltb_spec d 2); [lia|].
    change (shape (vector v)) with [length v]. rewrite Hv, Nat.eqb_refl. cbn [negb].
    destruct (Nat.eqb_spec K 0); [lia|]. rewrite Hdt.
    assert (Hb : forallb (fun j => j <? K) (Np.where_eq0_first (vector v)) = true).
    { rewrite <- Hv. apply (where_bound (vector v) (length v) [] (wf_vector v) eq_refl). }
    rewrite Hb. by rewrite (masked_data_all _ _ _ HK Hv Hz).
Qed.

Lemma parse_all_valid_and_all_invalid_witness :
  parse_keypoints_mask (PyArray (full [2; 3; 2] f0)) (PyArray (vector [f0; f0; f0]))
  = Ok (full ([2] ++ [3; 1]) Float.nan).
Proof.
  apply (proj2 (parse_all_valid_and_all_invalid (full [2; 3; 2] f0) [2] 3 2
                  eq_refl eq_refl (le_n 2) (Nat.lt_0_succ 2)) [f0; f0; f0]);
    [reflexivity | repeat constructor].
Defined.

Section ParseThenStats.

Implicit Types (v : list Float.t) (x : Float.t) (n_view K : nat) (k : Z).

Lemma fmap_const_seq {B} (c : B) (s n : nat) :
  (fun _ => c) <$> seq s n = replicate n c.
Proof. revert s. induction n as [|n IH]; intros s; csimpl; [done|]. by rewrite IH. Qed.

Lemma has_nan_replicate_value n_view x :
  0 < n_view → has_nan (replicate n_view (mask_value x)) = Float.eqb x Float.zero.
Proof.
  intros Hn. unfold mask_value, has_nan.
  destruct (Float.eqb x Float.zero).
  - destruct n_view; [lia|]. done.
  - clear Hn. induction n_view as [|n IH]; [done|]. simpl. by rewrite IH.
Qed.

Lemma ones_replicate_one n_view : ones (replicate n_view Float.one) = n_view.
Proof.
  unfold ones. induction n_view as [|n IH]; [done|]. simpl.
  change (Float.eqb Float.one Float.one) with true. simpl. by rewrite IH.
Qed.

Lemma zeros_le v : zeros v ≤ length v.
Proof. unfold zeros. apply List.filter_length_le. Qed.

Lemma excluded_broadcast n_view v :
  0 < n_view →
  excluded ((fun x => replicate n_view (mask_value x)) <$> v) = zeros v.
Proof.
  intros Hn. unfold excluded, zeros. induction v as [|x v IH]; [done|]. csimpl.
  rewrite (has_nan_replicate_value _ _ Hn).
  destruct (Float.eqb x Float.zero); simpl; by rewrite IH.
Qed.

Lemma ones_replicate_value n_view x :
  Float.eqb x Float.zero = false → ones (replicate n_view (mask_value x)) = n_view.
Proof. intros E. unfold mask_value. rewrite E. apply ones_replicate_one. Qed.

Lemma hits_broadcast n_view v k :
  0 < n_view →
  hits k ((fun x => replicate n_view (mask_value x)) <$> v)
  = if (k =? Z.of_nat n_view)%Z then length v - zeros v else 0.
Proof.
  intros Hn. induction v as [|x v IH].
  - by destruct (k =? Z.of_nat n_view)%Z.
  - pose proof (zeros_le v) as Hle. unfold hits, zeros in *. csimpl.
    rewrite (has_nan_replicate_value _ _ Hn).
    destruct (Float.eqb x Float.zero) eqn:E; simpl.
    + rewrite IH. destruct (k =? Z.of_nat n_view)%Z; lia.
    + rewrite (ones_replicate_value _ _ E).
      destruct (Z.eqb_spec (Z.of_nat n_view) k) as [<-|Hne]; simpl; rewrite IH.
      * rewrite Z.eqb_refl. lia.
      * destruct (Z.eqb_spec k (Z.of_nat n_view)); [congruence|done].
Qed.

(** The slices of a mask in which every view of keypoint [j] holds the
    value of the validity entry [j]. *)
Lemma pairs_broadcast (mask : ndarray) n_view K v :
  shape mask = [n_view; K; 1] → length v = K →
  (∀ i j x, i < n_view → v !! j = Some x →
     data mask !! (i * K + j) = Some (mask_value x)) →
  pairs mask = (fun x => replicate n_view (mask_value x)) <$> v.
Proof.
  intros Hs Hv Hdata. rewrite (pairs_rank3 _ _ _ _ Hs).
  apply list_eq. intros j. rewrite !list_lookup_fmap.
  destruct (v !! j) as [x|] eqn:Hj.
  - assert (Hlt : j < K) by (rewrite <- Hv; by eapply lookup_lt_Some).
    rewrite lookup_seq_lt by done. simpl. f_equal. unfold slice_at.
    rewrite (omap_seq_total _ (fun _ => mask_value x)).
    + apply fmap_const_seq.
    + intros i Hi. rewrite Nat.mul_1_r. by apply Hdata.
  - apply lookup_ge_None in Hj. rewrite Hv in Hj.
    by rewrite lookup_seq_ge by done.
Qed.

End ParseThenStats.

(** X16. The two functions compose: for float64 keypoints of shape
    [n_view, K, d] with at least one view and one keypoint, the mask of
    [parse_keypoints_mask] fed to the statistics loop leaves [total_pairs]
    at [K] minus the number of zero validity entries, puts all the
    remaining keypoints in bucket [n_view] when that bucket exists, and
    leaves every other bucket at zero. *)
Theorem parse_then_count_valid_views
    (a : ndarray) (n_view K d : nat) (v : list Float.t) (concerned_n_view : Z) :
  dtype a = float64 →
  shape a = [n_view; K; d] → 2 ≤ d → 0 < K → 0 < n_view → length v = K →
  ∃ mask valid_stats_dict,
    parse_keypoints_mask (PyArray a) (PyArray (vector v)) = Ok mask
    ∧ count_valid_views mask concerned_n_view
      = Ok (valid_stats_dict, (Z.of_nat K - Z.of_nat (zeros v))%Z)
    ∧ ∀ k, (0 ≤ k < concerned_n_view)%Z →
        Dict.get valid_stats_dict k
        = Some (Float.count (if (k =? Z.of_nat n_view)%Z then K - zeros v else 0)).
Proof.
  intros Hdt Hs Hd HK Hn Hv.
  destruct (keypoint_validity_broadcast a [n_view] K d v Hdt Hs Hd HK Hv)
    as (mask & Hparse & Hshape & _ & Hdata).
  assert (Hpairs : pairs mask = (fun x => replicate n_view (mask_value x)) <$> v).
  { apply (pairs_broadcast _ _ K); [done..|].
    intros i j x Hi Hj. apply Hdata; [|done]. unfold size. simpl. lia. }
  exists mask, (histogram concerned_n_view (pairs mask)).
  split; [done|]. split.
  - rewrite (count_valid_views_spec _ _ _ _ concerned_n_view Hshape (Nat.lt_0_1)).
    by rewrite Hpairs, (excluded_broadcast _ _ Hn).
  - intros k Hk. unfold histogram. rewrite get_tabulate.
    rewrite bool_decide_eq_true_2 by (by apply elem_of_range).
    by rewrite Hpairs, (hits_broadcast _ _ _ Hn), Hv.
Qed.

Lemma parse_then_count_valid_views_witness :
  ∃ mask valid_stats_dict,
    parse_keypoints_mask (PyArray (full [2; 3; 2] f0)) (PyArray (vector [f1; f0; f1]))
      = Ok mask
    ∧ count_valid_views mask 3
      = Ok (valid_stats_dict, (Z.of_nat 3 - Z.of_nat (zeros [f1; f0; f1]))%Z)
    ∧ ∀ k, (0 ≤ k < 3)%Z →
        Dict.get valid_stats_dict k
        = Some (Float.count (if (k =? Z.of_nat 2)%Z
                             then 3 - zeros [f1; f0; f1] else 0)).
Proof.
  apply (parse_then_count_valid_views (full [2; 3; 2] f0) 2 3 2 [f1; f0; f1] 3);
    [reflexivity | reflexivity | lia | lia | lia | reflexivity].
Defined.
